(** * interactions.py: the object model of Member, Invite and the
    component family, embedded over an explicit attribute store.

    Sources embedded here:
      - src/interactions/api/models/member.py        (Member)
      - src/interactions/models/discord/invite.py    (Invite)
      - src/interactions/models/component.py         (SelectMenu, Button,
                                                      Component, ActionRow)

    A Python object is its attribute store, a finite map from attribute
    names to values; a dict is a finite map from keys to values.  Remote
    calls are recorded in a trace and answered by the transport
    collaborator, which is a parameter of the development. *)

From stdpp Require Import gmap strings list fin_maps.
From Stdlib Require DecimalString.

#[local] Set Warnings "-register-all".
#[local] Open Scope string_scope.
#[local] Open Scope Z_scope.

(* ===================================================================== *)
(** ** Python values *)
(* ===================================================================== *)

(** [VMissing] is the MISSING sentinel, [VClient] the reference to the
    client/session (the HTTP client that member.py calls, the client with
    its [http] and [cache] that invite.py calls), [VEnum cls n] the member
    of value [n] of the IntEnum class [cls], [VTime t] a parsed timestamp
    and [VObj cls attrs] an instance of class [cls] with attribute store
    [attrs]. *)
Inductive pyval : Type :=
| VNone
| VMissing
| VClient
| VBool (b : bool)
| VInt (n : Z)
| VStr (s : string)
| VTime (t : Z)
| VList (l : list pyval)
| VDict (d : gmap string pyval)
| VEnum (cls : string) (n : Z)
| VObj (cls : string) (attrs : gmap string pyval).

(** Exceptions.  [TransportError] stands for whatever the transport
    collaborator raises; [FormatError] and [UnknownVariant] are the
    conversion failures of the specification. *)
Inductive exn : Type :=
| AttributeError (msg : string)
| TypeError (msg : string)
| ValueError (msg : string)
| FormatError (what : string)
| UnknownVariant (cls : string) (raw : pyval)
| TransportError (code : Z) (msg : string).

Inductive result (A : Type) : Type :=
| Ok (a : A)
| Err (e : exn).
Arguments Ok {A} a.
Arguments Err {A} e.

#[global] Instance result_ret : MRet result := fun A a => Ok a.
#[global] Instance result_bind : MBind result := fun A B f r =>
  match r with
  | Ok a => f a
  | Err e => Err e
  end.

(** [x is MISSING] *)
Definition is_missing (v : pyval) : bool :=
  match v with VMissing => true | _ => false end.

(** Truth value of [v] in a condition ([if v], [not v], [v or w]).  The
    MISSING of attrs_utils is a class object and a client is a plain
    object, both true; an IntEnum member is true when its value is not
    zero. *)
Definition truthy (v : pyval) : bool :=
  match v with
  | VNone => false
  | VMissing => true
  | VClient => true
  | VBool b => b
  | VInt n => negb (n =? 0)
  | VStr s => negb (String.eqb s "")
  | VTime _ => true
  | VList l => match l with [] => false | _ => true end
  | VDict d => negb (Nat.eqb (size d) 0)
  | VEnum _ n => negb (n =? 0)
  | VObj _ _ => true
  end.

Definition no_attribute (ty name : string) : exn :=
  AttributeError ("'" ++ ty ++ "' object has no attribute '" ++ name ++ "'").

(** [self.name] on an attribute store: an unset slot raises. *)
Definition getattr (self : gmap string pyval) (name : string) : result pyval :=
  match self !! name with
  | Some v => Ok v
  | None => Err (AttributeError name)
  end.

Definition setattr (self : gmap string pyval) (name : string) (v : pyval)
  : gmap string pyval := <[name := v]> self.

Definition type_name (v : pyval) : string :=
  match v with
  | VNone => "NoneType"
  | VMissing => "type"
  | VClient => "Client"
  | VBool _ => "bool"
  | VInt _ => "int"
  | VStr _ => "str"
  | VTime _ => "datetime"
  | VList _ => "list"
  | VDict _ => "dict"
  | VEnum cls _ => cls
  | VObj cls _ => cls
  end.

(** [v.name] on a value: only instances carry the attributes of the model. *)
Definition vgetattr (v : pyval) (name : string) : result pyval :=
  match v with
  | VObj cls attrs =>
      match attrs !! name with
      | Some x => Ok x
      | None => Err (no_attribute cls name)
      end
  | _ => Err (no_attribute (type_name v) name)
  end.

(** [getattr(v, name, default)] *)
Definition getattr_default (v : pyval) (name : string) (dflt : pyval) : pyval :=
  match v with
  | VObj _ attrs => default dflt (attrs !! name)
  | _ => dflt
  end.

(** [e.value] of an enum member. *)
Definition enum_value (v : pyval) : result pyval :=
  match v with
  | VEnum _ n => Ok (VInt n)
  | _ => Err (no_attribute (type_name v) "value")
  end.

(** [d.update(other)] on dicts: the keys of [other] win. *)
Definition dict_update (d other : gmap string pyval) : gmap string pyval :=
  other ∪ d.

(** Monadic map over a list, left to right. *)
Fixpoint mapM_result {A B} (f : A -> result B) (l : list A) : result (list B) :=
  match l with
  | [] => Ok []
  | x :: l' =>
      y ← f x;
      ys ← mapM_result f l';
      Ok (y :: ys)
  end.

(** [enumerate(l)] starting at [i]. *)
Fixpoint enumerate_from {A} (i : Z) (l : list A) : list (Z * A) :=
  match l with
  | [] => []
  | x :: l' => (i, x) :: enumerate_from (i + 1) l'
  end.

(* ===================================================================== *)
(** ** Collaborators *)
(* ===================================================================== *)

(** One constructor per transport method the sources call, with the
    arguments in the order the call site passes them. *)
Inductive call : Type :=
| create_guild_ban (guild_id user_id reason delete_message_days : pyval)
| create_guild_kick (guild_id user_id reason : pyval)
| add_member_role (guild_id user_id role_id reason : pyval)
| remove_member_role (guild_id user_id role_id reason : pyval)
| create_dm (recipient_id : pyval)
| create_message (channel_id payload files : pyval)
| modify_member (user_id guild_id payload reason : pyval)
| add_member_to_thread (user_id thread_id : pyval)
| delete_invite (code reason : pyval).

(** The entity cache: synchronous lookups by identifier. *)
Record Cache : Type := {
  channel_cache : gmap Z pyval;
  user_cache : gmap Z pyval
}.

(** What the sources import and this development does not define: the
    transport (answering a call given the calls made so far), the text
    conversions of the Python library, and the classes and helpers of the
    modules that are not part of the embedded files. *)
Record Env : Type := {
  transport : list call -> call -> result pyval;
  parse_iso : string -> option Z;
  int_of_str : string -> option Z;
  User : pyval -> result pyval;
  Permissions : Z -> result pyval;
  Channel : gmap string pyval -> result pyval;
  Message : gmap string pyval -> pyval -> result pyval;
  _build_components : pyval -> result pyval;
  _json_payload : pyval -> Z -> result pyval;
  ComponentType_values : list Z;
  InviteTargetTypes_values : list Z
}.

(** [int(v)] *)
Definition py_int (E : Env) (v : pyval) : result Z :=
  match v with
  | VInt n => Ok n
  | VBool b => Ok (if b then 1 else 0)
  | VEnum _ n => Ok n
  | VStr s =>
      match int_of_str E s with
      | Some n => Ok n
      | None => Err (ValueError "invalid literal for int()")
      end
  | _ => Err (TypeError "int() argument must be a string or a number")
  end.

(** Modelled from the spec: the cache collaborator (not among the embedded
    files), [get_<entity>(id) -> Entity | null]: the entity stored under
    the identifier, null when none is resident. *)
Definition get_channel (cache : Cache) (id : pyval) : pyval :=
  match id with
  | VInt n => default VNone (channel_cache cache !! n)
  | _ => VNone
  end.

(** Modelled from the spec: the cache collaborator, as [get_channel]. *)
Definition get_user (cache : Cache) (id : pyval) : pyval :=
  match id with
  | VInt n => default VNone (user_cache cache !! n)
  | _ => VNone
  end.

(* ===================================================================== *)
(** ** Conversion utilities *)
(* ===================================================================== *)

(** Modelled from the spec: [optional(converter)] of the conversion
    utilities (attr_converters is not among the embedded files): null and
    unset pass through unchanged, anything else goes to [converter]. *)
Definition optional (converter : pyval -> result pyval) (v : pyval) : result pyval :=
  match v with
  | VNone => Ok VNone
  | VMissing => Ok VMissing
  | _ => converter v
  end.

(** Modelled from the spec: [timestamp(value)] parses an ISO-8601 string
    and fails with FormatError on malformed input; a value that is already
    a timestamp is kept. *)
Definition timestamp (E : Env) (v : pyval) : result pyval :=
  match v with
  | VStr s =>
      match parse_iso E s with
      | Some t => Ok (VTime t)
      | None => Err (FormatError "timestamp")
      end
  | VTime t => Ok (VTime t)
  | _ => Err (FormatError "timestamp")
  end.

(** Modelled from the spec: [snowflake(value)] normalises an integer or a
    numeric string into the canonical identifier and fails with
    FormatError on anything else. *)
Definition snowflake (E : Env) (v : pyval) : result pyval :=
  match v with
  | VInt n => Ok (VInt n)
  | VStr s =>
      match int_of_str E s with
      | Some n => Ok (VInt n)
      | None => Err (FormatError "snowflake")
      end
  | _ => Err (FormatError "snowflake")
  end.

(** Modelled from the spec: [enumCoerce(EnumType)] (the enum modules are
    not among the embedded files): a raw integer goes to the variant with
    that value and fails with UnknownVariant when there is none; a member
    of the class is kept. *)
Definition enumCoerce (cls : string) (values : list Z) (v : pyval) : result pyval :=
  match v with
  | VInt n =>
      if bool_decide (n ∈ values) then Ok (VEnum cls n)
      else Err (UnknownVariant cls v)
  | VEnum c n =>
      if String.eqb c cls then Ok v else Err (UnknownVariant cls v)
  | _ => Err (UnknownVariant cls v)
  end.

(** Modelled from the spec: the enum coercion under the policy of the
    error-handling design (the enum modules are not among the embedded
    files): an integer with no variant is not an error, the raw integer
    is kept. *)
Definition enumCoerce_keep (cls : string) (values : list Z) (v : pyval)
  : result pyval :=
  match v with
  | VInt n => if bool_decide (n ∈ values) then Ok (VEnum cls n) else Ok (VInt n)
  | _ => enumCoerce cls values v
  end.

(** [datetime.fromisoformat], which raises ValueError. *)
Definition fromisoformat (E : Env) (v : pyval) : result pyval :=
  match v with
  | VStr s =>
      match parse_iso E s with
      | Some t => Ok (VTime t)
      | None => Err (ValueError "Invalid isoformat string")
      end
  | _ => Err (TypeError "fromisoformat: argument must be str")
  end.

(** [convert_int(cls)]: [cls(int(x))]. *)
Definition convert_int (E : Env) (cls : Z -> result pyval) (v : pyval) : result pyval :=
  n ← py_int E v; cls n.

(* ===================================================================== *)
(** ** Field descriptors and the serializable base *)
(* ===================================================================== *)

Record field_descriptor : Type := mkfield {
  fd_name : string;                       (* logical name *)
  fd_wire : string;                       (* wire key *)
  fd_converter : pyval -> result pyval;
  fd_default : option pyval;              (* [None]: no default declared *)
  fd_add_client : bool
}.

Definition identity_converter (v : pyval) : result pyval := Ok v.

(** Modelled from the spec: the value of one field, from the serializable
    base (attrs_utils and base are not among the embedded files): look up
    the wire key; if absent use the default, if present apply the
    converter.  A field with no default whose key is absent cannot be
    built. *)
Definition field_value (d : field_descriptor) (raw : gmap string pyval) : result pyval :=
  match raw !! fd_wire d with
  | Some x => fd_converter d x
  | None =>
      match fd_default d with
      | Some v => Ok v
      | None => Err (TypeError ("missing required argument: " ++ fd_wire d))
      end
  end.

(** Modelled from the spec: the fields are assigned in schema order. *)
Fixpoint build_fields (schema : list field_descriptor) (raw : gmap string pyval)
    (acc : gmap string pyval) : result (gmap string pyval) :=
  match schema with
  | [] => Ok acc
  | d :: rest =>
      v ← field_value d raw;
      build_fields rest raw (<[fd_name d := v]> acc)
  end.

(** Modelled from the spec: the keys of [raw] that no descriptor covers,
    kept verbatim in the extra-data bag. *)
Definition extra_data (schema : list field_descriptor) (raw : gmap string pyval)
  : gmap string pyval :=
  foldr (fun d m => delete (fd_wire d) m) raw schema.

(** Modelled from the spec: [fromJSON(schema, raw)] of the serializable
    base. *)
Definition fromJSON (schema : list field_descriptor) (raw : gmap string pyval)
  : result (gmap string pyval) :=
  build_fields schema raw {[ "_extras" := VDict (extra_data schema raw) ]}.




(** Modelled from the spec: the client reference given to one nested
    value: to a nested object, and to the objects of a list. *)
Definition attach_client (c : pyval) (v : pyval) : pyval :=
  match v with
  | VObj cls attrs => VObj cls (<["_client" := c]> attrs)
  | VList l =>
      VList (map (fun x => match x with
                           | VObj cls attrs => VObj cls (<["_client" := c]> attrs)
                           | _ => x
                           end) l)
  | _ => v
  end.

Definition bind_field (c : pyval) (inst : gmap string pyval) (d : field_descriptor)
  : gmap string pyval :=
  if fd_add_client d then
    match inst !! fd_name d with
    | Some v => <[fd_name d := attach_client c v]> inst
    | None => inst
    end
  else inst.

(** Modelled from the spec: the client-bound base: build the fields, then
    give the client reference to every field marked client-bound and keep
    it on the instance. *)
Definition fromJSON_client (schema : list field_descriptor) (raw : gmap string pyval)
    (c : pyval) : result (gmap string pyval) :=
  inst ← fromJSON schema raw;
  Ok (<["_client" := c]> (foldl (bind_field c) inst schema)).








(* ===================================================================== *)
(** ** Action methods: state, errors and the call trace *)
(* ===================================================================== *)

(** The state an action method runs in: the instance it is called on and
    the transport calls made so far. *)
Record world : Type := World {
  self : gmap string pyval;
  calls : list call
}.

Definition M (A : Type) : Type := world -> result A * world.

#[global] Instance M_ret : MRet M := fun A a w => (Ok a, w).
#[global] Instance M_bind : MBind M := fun A B f m w =>
  match m w with
  | (Ok a, w') => f a w'
  | (Err e, w') => (Err e, w')
  end.

Definition lift {A} (r : result A) : M A := fun w => (r, w).
Definition raise {A} (e : exn) : M A := fun w => (Err e, w).
Definition get_self : M (gmap string pyval) := fun w => (Ok (self w), w).

(** [setattr(self, name, v)] *)
Definition set_self (name : string) (v : pyval) : M unit :=
  fun w => (Ok tt, World (setattr (self w) name v) (calls w)).

(** [await self._client.<method>(...)]: the call is recorded, the
    transport answers it or raises. *)
Definition await (E : Env) (c : call) : M pyval :=
  fun w => (transport E (calls w) c, World (self w) (calls w ++ [c])).

(** [client.<name>]: only a client has the transport methods. *)
Definition http_method (c : pyval) (name : string) : result unit :=
  match c with
  | VClient => Ok tt
  | _ => Err (no_attribute (type_name c) name)
  end.

(** The error the guarded action methods raise. *)
Definition MissingContext : exn := AttributeError "HTTPClient not found!".

(** [**res]: only a mapping can be unpacked into keyword arguments. *)
Definition kwargs_of (res : pyval) : result (gmap string pyval) :=
  match res with
  | VDict d => Ok d
  | _ => Err (TypeError "argument after ** must be a mapping")
  end.

(* ===================================================================== *)
(** ** src/interactions/api/models/member.py *)
(* ===================================================================== *)

Module Member.
Section WithEnv.
Context (E : Env).

(** The declared fields, in order.  [field()] with no default leaves the
    field required. *)
Definition schema : list field_descriptor :=
  [ mkfield "user" "user" (User E) (Some VNone) true;
    mkfield "nick" "nick" identity_converter (Some VNone) false;
    mkfield "_avatar" "avatar" identity_converter (Some VNone) false;
    mkfield "roles" "roles" identity_converter None false;
    mkfield "joined_at" "joined_at" (fromisoformat E) None false;
    mkfield "premium_since" "premium_since" (fromisoformat E) (Some VNone) false;
    mkfield "deaf" "deaf" identity_converter None false;
    mkfield "mute" "mute" identity_converter None false;
    mkfield "is_pending" "is_pending" identity_converter (Some VNone) false;
    mkfield "pending" "pending" identity_converter (Some VNone) false;
    mkfield "permissions" "permissions" (convert_int E (Permissions E))
      (Some VNone) false;
    mkfield "communication_disabled_until" "communication_disabled_until"
      (fromisoformat E) (Some VNone) false;
    mkfield "hoisted_role" "hoisted_role" identity_converter (Some VNone) false;
    mkfield "flags" "flags" identity_converter None false ].

(** The slots of the class are its declared fields; [_client] and the
    bookkeeping of the serializer live in the slots of the base
    classes. *)
Definition __slots__ : list string := fd_name <$> schema.

(** [Member( **res, _client=c)] *)
Definition new (res : gmap string pyval) (c : pyval) : result (gmap string pyval) :=
  match res !! "_client" with
  | Some _ => Err (TypeError "got multiple values for keyword argument '_client'")
  | None => fromJSON_client schema res c
  end.

(** [self._avatar or getattr(self.user, "avatar", None)] *)
Definition avatar (self : gmap string pyval) : result pyval :=
  a ← getattr self "_avatar";
  if truthy a then Ok a
  else
    u ← getattr self "user";
    Ok (getattr_default u "avatar" VNone).

(** [self.user.id if self.user else None] *)
Definition id (self : gmap string pyval) : result pyval :=
  u ← getattr self "user";
  if truthy u then vgetattr u "id" else Ok VNone.

(** [self.nick or (self.user.username if self.user else None)] *)
Definition name (self : gmap string pyval) : result pyval :=
  n ← getattr self "nick";
  if truthy n then Ok n
  else
    u ← getattr self "user";
    if truthy u then vgetattr u "username" else Ok VNone.

(** [int(self.user.id)] *)
Definition user_id (self : gmap string pyval) : result Z :=
  u ← getattr self "user";
  i ← vgetattr u "id";
  py_int E i.

Definition ban (guild_id reason delete_message_days : pyval) : M pyval :=
  s ← get_self;
  c ← lift (getattr s "_client");
  _ ← lift (http_method c "create_guild_ban");
  uid ← lift (user_id s);
  _ ← await E (create_guild_ban guild_id (VInt uid) reason delete_message_days);
  mret VNone.

Definition kick (guild_id reason : pyval) : M pyval :=
  s ← get_self;
  c ← lift (getattr s "_client");
  if negb (truthy c) then raise MissingContext
  else
    _ ← lift (http_method c "create_guild_kick");
    uid ← lift (user_id s);
    _ ← await E (create_guild_kick guild_id (VInt uid) reason);
    mret VNone.

(** [isinstance(role, Role)] *)
Definition is_Role (role : pyval) : bool :=
  match role with
  | VObj cls _ => String.eqb cls "Role"
  | _ => false
  end.

Definition add_role (role guild_id reason : pyval) : M pyval :=
  s ← get_self;
  c ← lift (getattr s "_client");
  if negb (truthy c) then raise MissingContext
  else if is_Role role then
    _ ← lift (http_method c "add_member_role");
    uid ← lift (user_id s);
    rid ← lift (i ← vgetattr role "id"; py_int E i);
    _ ← await E (add_member_role guild_id (VInt uid) (VInt rid) reason);
    mret VNone
  else
    _ ← lift (http_method c "add_member_role");
    uid ← lift (user_id s);
    _ ← await E (add_member_role guild_id (VInt uid) role reason);
    mret VNone.

Definition remove_role (role guild_id reason : pyval) : M pyval :=
  s ← get_self;
  c ← lift (getattr s "_client");
  if negb (truthy c) then raise MissingContext
  else if is_Role role then
    _ ← lift (http_method c "remove_member_role");
    uid ← lift (user_id s);
    rid ← lift (i ← vgetattr role "id"; py_int E i);
    _ ← await E (remove_member_role guild_id (VInt uid) (VInt rid) reason);
    mret VNone
  else
    _ ← lift (http_method c "remove_member_role");
    uid ← lift (user_id s);
    _ ← await E (remove_member_role guild_id (VInt uid) role reason);
    mret VNone.

(** The locals [_content], [_tts], [_embeds], [_allowed_mentions],
    [_components], [_files] of [send], then [payload] and the [files]
    passed on to the transport. *)
Definition send_payload (content components tts files embeds allowed_mentions : pyval)
  : result (gmap string pyval * pyval) :=
  let _content := if is_missing content then VStr "" else content in
  let _tts := if is_missing tts then VBool false else tts in
  _embeds ←
    (if negb (truthy embeds) || is_missing embeds then Ok (VList [])
     else match embeds with
          | VList l => l' ← mapM_result (fun e => vgetattr e "_json") l; Ok (VList l')
          | _ => j ← vgetattr embeds "_json"; Ok (VList [j])
          end);
  let _allowed_mentions :=
    if is_missing allowed_mentions then VDict ∅ else allowed_mentions in
  _components ←
    (if negb (truthy components) || is_missing components then Ok (VList [])
     else _build_components E components);
  '(_files, files') ←
    (if negb (truthy files) || is_missing files then Ok (VList [], files)
     else match files with
          | VList l =>
              l' ← mapM_result (fun '(i, f) => _json_payload E f i) (enumerate_from 0 l);
              Ok (VList l', files)
          | _ => j ← _json_payload E files 0; Ok (VList [j], VList [files])
          end);
  Ok (<["content" := _content]>
       (<["tts" := _tts]>
         (<["attachments" := _files]>
           (<["embeds" := _embeds]>
             (<["components" := _components]>
               (<["allowed_mentions" := _allowed_mentions]> ∅))))),
      files').

Definition send (content components tts files embeds allowed_mentions : pyval)
  : M pyval :=
  s ← get_self;
  c ← lift (getattr s "_client");
  if negb (truthy c) then raise MissingContext
  else
    '(payload, files') ←
      lift (send_payload content components tts files embeds allowed_mentions);
    _ ← lift (http_method c "create_dm");
    uid ← lift (user_id s);
    dm ← await E (create_dm (VInt uid));
    channel ← lift (kw ← kwargs_of dm; Channel E kw);
    _ ← lift (http_method c "create_message");
    cid ← lift (i ← vgetattr channel "id"; py_int E i);
    res ← await E (create_message (VInt cid) (VDict payload) files');
    lift (kw ← kwargs_of res;
          match kw !! "_client" with
          | Some _ =>
              Err (TypeError "got multiple values for keyword argument '_client'")
          | None => Message E kw c
          end).

(** The [payload] dict of [modify], filled in the order of the source. *)
Definition modify_payload (nick roles mute deaf channel_id
    communication_disabled_until : pyval) : gmap string pyval :=
  let payload := ∅ in
  let payload := if is_missing nick then payload else <["nick" := nick]> payload in
  let payload := if is_missing roles then payload else <["roles" := roles]> payload in
  let payload :=
    if is_missing channel_id then payload
    else <["channel_id" := channel_id]> payload in
  let payload := if is_missing mute then payload else <["mute" := mute]> payload in
  let payload := if is_missing deaf then payload else <["deaf" := deaf]> payload in
  if is_missing communication_disabled_until then payload
  else <["communication_disabled_until" := communication_disabled_until]> payload.

(** [for attr in self.__slots__: setattr(self, attr, getattr(member, attr))] *)
Fixpoint copy_slots (slots : list string) (member : gmap string pyval) : M unit :=
  match slots with
  | [] => mret tt
  | attr :: rest =>
      v ← lift (getattr member attr);
      _ ← set_self attr v;
      copy_slots rest member
  end.

Definition modify (guild_id nick roles mute deaf channel_id
    communication_disabled_until reason : pyval) : M (gmap string pyval) :=
  s ← get_self;
  c ← lift (getattr s "_client");
  if negb (truthy c) then raise MissingContext
  else
    let payload :=
      modify_payload nick roles mute deaf channel_id communication_disabled_until in
    _ ← lift (http_method c "modify_member");
    uid ← lift (user_id s);
    res ← await E (modify_member (VInt uid) guild_id (VDict payload) reason);
    member ← lift (kw ← kwargs_of res; new kw c);
    _ ← copy_slots __slots__ member;
    mret member.

Definition add_to_thread (thread_id : pyval) : M pyval :=
  s ← get_self;
  c ← lift (getattr s "_client");
  if negb (truthy c) then raise MissingContext
  else
    _ ← lift (http_method c "add_member_to_thread");
    uid ← lift (user_id s);
    _ ← await E (add_member_to_thread (VInt uid) thread_id);
    mret VNone.

End WithEnv.
End Member.

(* ===================================================================== *)
(** ** src/interactions/models/discord/invite.py *)
(* ===================================================================== *)

Module Invite.
Section WithEnv.
Context (E : Env).

(** Modelled from the spec: the enum class InviteTargetTypes (the enums
    module is not among the embedded files).  [target_type] is declared
    [Optional[Union[InviteTargetTypes, int]]]: an integer with no variant
    stays in the field as the raw integer. *)
Definition InviteTargetTypes : pyval -> result pyval :=
  enumCoerce_keep "InviteTargetTypes" (InviteTargetTypes_values E).

(** The declared fields, in order.  attrs takes the keyword of a private
    attribute without its leading underscore. *)
Definition schema : list field_descriptor :=
  [ mkfield "code" "code" identity_converter None false;
    mkfield "uses" "uses" identity_converter (Some (VInt 0)) false;
    mkfield "max_uses" "max_uses" identity_converter (Some (VInt 0)) false;
    mkfield "max_age" "max_age" identity_converter (Some (VInt 0)) false;
    mkfield "created_at" "created_at" (optional (timestamp E)) (Some VMissing) false;
    mkfield "temporary" "temporary" identity_converter (Some (VBool false)) false;
    mkfield "target_type" "target_type" (optional InviteTargetTypes)
      (Some VNone) false;
    mkfield "approximate_presence_count" "approximate_presence_count"
      identity_converter (Some VMissing) false;
    mkfield "approximate_member_count" "approximate_member_count"
      identity_converter (Some VMissing) false;
    mkfield "scheduled_event" "scheduled_event" (optional (snowflake E))
      (Some VNone) false;
    mkfield "expires_at" "expires_at" (optional (timestamp E)) (Some VNone) false;
    mkfield "stage_instance" "stage_instance" identity_converter (Some VNone) false;
    mkfield "target_application" "target_application" identity_converter
      (Some VNone) false;
    mkfield "guild_preview" "guild_preview" identity_converter (Some VMissing) false;
    mkfield "_channel_id" "channel_id" (snowflake E) None false;
    mkfield "_inviter_id" "inviter_id" (optional (snowflake E)) (Some VNone) false;
    mkfield "_target_user_id" "target_user_id" (optional (snowflake E))
      (Some VNone) false ].

(** [Invite(client=c, **data)] on the processed data.  The class is an
    [attrs.define] class: its constructor takes the declared keywords
    only and raises TypeError on any other, and the instance has no
    extra-data bag. *)
Definition new (data : gmap string pyval) (c : pyval) : result (gmap string pyval) :=
  if decide (map_Forall (fun k _ => k ∈ fd_wire <$> schema) data) then
    inst ← fromJSON_client schema data c;
    Ok (delete "_extras" inst)
  else Err (TypeError "__init__() got an unexpected keyword argument").

(** The MISSING of client.const is false in a condition. *)
Definition truthy_c (v : pyval) : bool := negb (is_missing v) && truthy v.

(** [self._client.cache.get_channel(self._channel_id)] *)
Definition channel (cache : Cache) (self : gmap string pyval) : result pyval :=
  c ← getattr self "_client";
  _ ← http_method c "cache";
  i ← getattr self "_channel_id";
  Ok (get_channel cache i).

(** [self._client.cache.get_user(self._inviter_id) if self._inviter_id else None] *)
Definition inviter (cache : Cache) (self : gmap string pyval) : result pyval :=
  i ← getattr self "_inviter_id";
  if truthy_c i then
    c ← getattr self "_client";
    _ ← http_method c "cache";
    Ok (get_user cache i)
  else Ok VNone.

(** [self._client.cache.get_user(self._target_user_id)
     if self._target_user_id else None] *)
Definition target_user (cache : Cache) (self : gmap string pyval) : result pyval :=
  i ← getattr self "_target_user_id";
  if truthy_c i then
    c ← getattr self "_client";
    _ ← http_method c "cache";
    Ok (get_user cache i)
  else Ok VNone.

(** [await self._client.http.delete_invite(self.code, reason=reason)] *)
Definition delete (reason : pyval) : M pyval :=
  s ← get_self;
  c ← lift (getattr s "_client");
  _ ← lift (http_method c "http");
  code ← lift (getattr s "code");
  _ ← await E (delete_invite code reason);
  mret VNone.

End WithEnv.
End Invite.

(* ===================================================================== *)
(** ** src/interactions/models/component.py *)
(* ===================================================================== *)

(** Modelled from the spec: the constructor of DictSerializerMixin
    (api/models/misc.py is not among the embedded files).  The component
    classes declare only their slots: each slot other than [_json] is a
    field under its own name, with no converter and null when its keyword
    is absent; the keyword mapping is kept as [_json]. *)
Definition slot_schema (slots : list string) : list field_descriptor :=
  (fun n => mkfield n n identity_converter (Some VNone) false)
    <$> filter (fun n => n ≠ "_json") slots.

Definition DictSerializerMixin_init (slots : list string) (kwargs : gmap string pyval)
  : result (gmap string pyval) :=
  inst ← fromJSON (slot_schema slots) kwargs;
  Ok (<["_json" := VDict kwargs]> inst).

(** [j.update]: only a dict has it. *)
Definition dict_of (j : pyval) : result (gmap string pyval) :=
  match j with
  | VDict d => Ok d
  | _ => Err (no_attribute (type_name j) "update")
  end.

Definition ComponentType_BUTTON : pyval := VEnum "ComponentType" 2.
Definition ComponentType_SELECT : pyval := VEnum "ComponentType" 3.

Module SelectMenu.
Section WithBase.
(** [super().__init__] *)
Context (super_init : list string -> gmap string pyval -> result (gmap string pyval)).

Definition __slots__ : list string :=
  ["_json"; "type"; "custom_id"; "placeholder"; "min_values"; "max_values";
   "disabled"].

Definition __init__ (kwargs : gmap string pyval) : result (gmap string pyval) :=
  self ← super_init __slots__ kwargs;
  let self := setattr self "type" ComponentType_SELECT in
  j ← getattr self "_json";
  d ← dict_of j;
  t ← getattr self "type";
  tv ← enum_value t;
  Ok (setattr self "_json" (VDict (dict_update d {[ "type" := tv ]}))).
End WithBase.
End SelectMenu.

Module Button.
Section WithBase.
Context (super_init : list string -> gmap string pyval -> result (gmap string pyval)).

Definition __slots__ : list string :=
  ["_json"; "type"; "style"; "label"; "emoji"; "custom_id"; "url"; "disabled"].

Definition __init__ (kwargs : gmap string pyval) : result (gmap string pyval) :=
  self ← super_init __slots__ kwargs;
  let self := setattr self "type" ComponentType_BUTTON in
  j ← getattr self "_json";
  d ← dict_of j;
  t ← getattr self "type";
  tv ← enum_value t;
  s ← getattr self "style";
  sv ← enum_value s;
  Ok (setattr self "_json"
        (VDict (dict_update d (<["type" := tv]> {[ "style" := sv ]})))).
End WithBase.
End Button.

Module Component.
Section WithBase.
Context (E : Env).
Context (super_init : list string -> gmap string pyval -> result (gmap string pyval)).

Definition ComponentType : pyval -> result pyval :=
  enumCoerce "ComponentType" (ComponentType_values E).

Definition __slots__ : list string :=
  ["_json"; "type"; "custom_id"; "disabled"; "style"; "label"; "emoji"; "url";
   "options"; "placeholder"; "min_values"; "max_values"; "components"].

Definition __init__ (kwargs : gmap string pyval) : result (gmap string pyval) :=
  self ← super_init __slots__ kwargs;
  t ← getattr self "type";
  t' ← ComponentType t;
  Ok (setattr self "type" t').
End WithBase.
End Component.

Module ActionRow.
Section WithBase.
Context (super_init : list string -> gmap string pyval -> result (gmap string pyval)).

Definition __slots__ : list string := ["_json"; "type"; "components"].

Definition __init__ (kwargs : gmap string pyval) : result (gmap string pyval) :=
  self ← super_init __slots__ kwargs;
  Ok (setattr self "type" (VInt 1)).
End WithBase.
End ActionRow.

(* ===================================================================== *)
(** ** A concrete environment, for running the definitions *)
(* ===================================================================== *)

Module Sample.

Fixpoint digits (s : string) (acc : Z) : option Z :=
  match s with
  | EmptyString => Some acc
  | String a s' =>
      let n := Z.of_N (Ascii.N_of_ascii a) - 48 in
      if (0 <=? n) && (n <=? 9) then digits s' (10 * acc + n) else None
  end.

(** Decimal text to integer. *)
Definition decimal (s : string) : option Z :=
  match s with
  | EmptyString => None
  | _ => digits s 0
  end.

(** A clock that knows two instants. *)
Definition clock (s : string) : option Z :=
  if String.eqb s "2021-09-01T00:00:00" then Some 1630454400
  else if String.eqb s "2022-01-01T00:00:00" then Some 1640995200
  else None.


(** Modelled from the spec: User (user.py is not among the embedded
    files), with the attributes Member reads: the identifier, the
    global username and the avatar, each null when its key is absent. *)
Definition User_schema : list field_descriptor :=
  [ mkfield "id" "id"
      (optional (fun v =>
         match v with
         | VInt n => Ok (VInt n)
         | VStr s =>
             match decimal s with
             | Some n => Ok (VInt n)
             | None => Err (FormatError "snowflake")
             end
         | _ => Err (FormatError "snowflake")
         end))
      (Some VNone) false;
    mkfield "username" "username" identity_converter (Some VNone) false;
    mkfield "avatar" "avatar" identity_converter (Some VNone) false ].


Definition user_of (v : pyval) : result pyval :=
  match v with
  | VNone => Ok VNone
  | VDict d => inst ← fromJSON User_schema d; Ok (VObj "User" inst)
  | _ => Err (TypeError "User() argument after ** must be a mapping")
  end.

Definition member_json : gmap string pyval :=
  <["user" := VDict (<["id" := VStr "42"]>
                      (<["username" := VStr "ada"]>
                        {[ "avatar" := VStr "abc123" ]}))]>
  (<["nick" := VStr "countess"]>
  (<["avatar" := VNone]>
  (<["roles" := VList [VInt 7]]>
  (<["joined_at" := VStr "2021-09-01T00:00:00"]>
  (<["deaf" := VBool false]>
  (<["mute" := VBool true]>
  {[ "flags" := VInt 0 ]})))))).

(** A transport that answers every call. *)
Definition answering (history : list call) (c : call) : result pyval :=
  match c with
  | modify_member _ _ _ _ => Ok (VDict member_json)
  | create_dm _ => Ok (VDict {[ "id" := VStr "77" ]})
  | create_message _ payload _ => Ok payload
  | _ => Ok VNone
  end.

(** A transport that refuses every call. *)
Definition refusing (history : list call) (c : call) : result pyval :=
  Err (TransportError 403 "Missing Permissions").

Definition env_with (t : list call -> call -> result pyval) : Env :=
  {| transport := t;
     parse_iso := clock;
     int_of_str := decimal;
     User := user_of;
     Permissions := fun n => Ok (VEnum "Permissions" n);
     Channel := fun kw => Ok (VObj "Channel" kw);
     Message := fun kw c => Ok (VObj "Message" (<["_client" := c]> kw));
     _build_components := fun v => Ok v;
     _json_payload := fun f i => Ok f;
     ComponentType_values := [1; 2; 3];
     InviteTargetTypes_values := [1; 2] |}.

Definition env : Env := env_with answering.
Definition refusing_env : Env := env_with refusing.

(** The member before a modify: another nick, no roles. *)
Definition old_member_json : gmap string pyval :=
  <["nick" := VNone]> (<["roles" := VList []]> member_json).

Definition invite_json : gmap string pyval :=
  <["code" := VStr "hK7x"]>
  (<["channel_id" := VStr "11"]>
  (<["inviter_id" := VInt 42]>
  (<["target_type" := VInt 1]>
  {[ "created_at" := VStr "2022-01-01T00:00:00" ]}))).

Definition cache : Cache :=
  {| channel_cache := {[ 11 := VObj "Channel" {[ "id" := VInt 11 ]} ]};
     user_cache := ∅ |}.

(** Instances built by the constructors, or the empty store should a
    constructor fail. *)
Definition built (r : result (gmap string pyval)) : gmap string pyval :=
  match r with
  | Ok inst => inst
  | Err _ => ∅
  end.

Definition member (c : pyval) : gmap string pyval :=
  built (Member.new env old_member_json c).

(** The attribute store of the nested user of a member. *)
Definition user_attrs (m : gmap string pyval) : gmap string pyval :=
  match m !! "user" with
  | Some (VObj _ attrs) => attrs
  | _ => ∅
  end.

(** The same member as the transport returns it after a modify. *)
Definition renamed_member (c : pyval) : gmap string pyval :=
  built (Member.new env member_json c).

Definition invite (c : pyval) : gmap string pyval :=
  built (Invite.new env invite_json c).

End Sample.

(* ===================================================================== *)
(** ** The rest of member.py and invite.py *)
(* ===================================================================== *)

(** [str(n)] of an integer. *)
Definition str_of_int (n : Z) : string :=
  DecimalString.NilZero.string_of_int (Z.to_int n).

(** [f"{v}"]: the text of a value in a formatted string.  None, booleans,
    integers and strings are written as Python writes them; the text of
    any other value comes from its class, which is a parameter. *)
Definition format_value (str_of_object : pyval -> string) (v : pyval) : string :=
  match v with
  | VNone => "None"
  | VBool true => "True"
  | VBool false => "False"
  | VInt n => str_of_int n
  | VStr s => s
  | _ => str_of_object v
  end.

Module MemberText.
Section WithEnv.
Context (E : Env) (str_of_object : pyval -> string).

(** [f"<@!{self.user.id}>" if self.nick else f"<@{self.user.id}>"] *)
Definition mention (self : gmap string pyval) : result pyval :=
  n ← getattr self "nick";
  if truthy n then
    u ← getattr self "user";
    i ← vgetattr u "id";
    Ok (VStr ("<@!" ++ format_value str_of_object i ++ ">"))
  else
    u ← getattr self "user";
    i ← vgetattr u "id";
    Ok (VStr ("<@" ++ format_value str_of_object i ++ ">")).

(** [repr(self)]: [__repr__] returns [self.name], and [repr] accepts only
    a string from it. *)
Definition __repr__ (self : gmap string pyval) : result pyval :=
  n ← Member.name self;
  match n with
  | VStr s => Ok (VStr s)
  | _ => Err (TypeError "__repr__ returned non-string")
  end.

(** [s.startswith(prefix)]: only a string has it. *)
Definition startswith (v : pyval) (prefix : string) : result bool :=
  match v with
  | VStr s => Ok (String.prefix prefix s)
  | _ => Err (no_attribute (type_name v) "startswith")
  end.

Definition get_member_avatar_url (guild_id : pyval) (self : gmap string pyval)
  : result pyval :=
  a ← Member.avatar self;
  if negb (truthy a) then Ok VNone
  else
    uid ← Member.user_id E self;
    a' ← Member.avatar self;
    let url :=
      "https://cdn.discordapp.com/guilds/" ++ format_value str_of_object guild_id
        ++ "/users/" ++ str_of_int uid
        ++ "/avatars/" ++ format_value str_of_object a' in
    a'' ← Member.avatar self;
    animated ← startswith a'' "a_";
    Ok (VStr (url ++ (if animated : bool then ".gif" else ".png"))).

End WithEnv.
End MemberText.

(** What an indexing [v[key]] raises beyond the exceptions above. *)
Inductive raised : Type :=
| KeyError (key : string)
| Raised (e : exn).

Inductive outcome (A : Type) : Type :=
| Done (a : A)
| Fail (r : raised).
Arguments Done {A} a.
Arguments Fail {A} r.

#[global] Instance outcome_ret : MRet outcome := fun A a => Done a.
#[global] Instance outcome_bind : MBind outcome := fun A B f r =>
  match r with
  | Done a => f a
  | Fail e => Fail e
  end.

Definition of_result {A} (r : result A) : outcome A :=
  match r with
  | Ok a => Done a
  | Err e => Fail (Raised e)
  end.

(** [v[key]] with a string key: a dict answers or raises KeyError, nothing
    else can be indexed by a string. *)
Definition subscript (v : pyval) (key : string) : outcome pyval :=
  match v with
  | VDict d =>
      match d !! key with
      | Some x => Done x
      | None => Fail (KeyError key)
      end
  | VStr _ | VList _ =>
      Fail (Raised (TypeError "indices must be integers"))
  | _ => Fail (Raised (TypeError "object is not subscriptable"))
  end.

Module InviteData.
Section WithEnv.
Context (E : Env) (str_of_object : pyval -> string).
(** The classes and the cache method that invite.py imports:
    [StageInstance.from_dict], [Application.from_dict],
    [GuildPreview.from_dict] and [client.cache.place_user_data], which
    stores the user and returns it. *)
Context (StageInstance_from_dict : gmap string pyval -> pyval -> result pyval).
Context (Application_from_dict : gmap string pyval -> pyval -> result pyval).
Context (GuildPreview_from_dict : pyval -> pyval -> result pyval).
Context (place_user_data : Cache -> pyval -> result (pyval * Cache)).

(** [_process_dict(cls, data, client)].  [data] is changed in place and
    returned; the cache is the one of [client]. *)
Definition _process_dict (data : gmap string pyval) (client : pyval) (cache : Cache)
  : outcome (gmap string pyval * Cache) :=
  data ←
    (match data !! "stage_instance" with
     | Some _ =>
         v ← of_result (StageInstance_from_dict data client);
         Done (<["stage_instance" := v]> data)
     | None => Done data
     end);
  data ←
    (match data !! "target_application" with
     | Some _ =>
         v ← of_result (Application_from_dict data client);
         Done (<["target_application" := v]> data)
     | None => Done data
     end);
  let data :=
    match data !! "target_event_id" with
    | Some e => <["scheduled_event" := e]> data
    | None => data
    end in
  let channel := default VNone (data !! "channel") in
  let data := delete "channel" data in
  data ←
    (if Invite.truthy_c channel then
       i ← subscript channel "id";
       Done (<["channel_id" := i]> data)
     else Done data);
  let guild := default VNone (data !! "guild") in
  let data := delete "guild" data in
  data ←
    (if Invite.truthy_c guild then
       v ← of_result (GuildPreview_from_dict guild client);
       Done (<["guild_preview" := v]> data)
     else Done data);
  let inviter := default VNone (data !! "inviter") in
  let data := delete "inviter" data in
  if Invite.truthy_c inviter then
    _ ← of_result (http_method client "cache");
    '(user, cache') ← of_result (place_user_data cache inviter);
    i ← of_result (vgetattr user "id");
    Done (<["inviter_id" := i]> data, cache')
  else Done (data, cache).

(** [link] *)
Definition link (self : gmap string pyval) : result pyval :=
  e ← getattr self "scheduled_event";
  if Invite.truthy_c e then
    code ← getattr self "code";
    e' ← getattr self "scheduled_event";
    Ok (VStr ("https://discord.gg/" ++ format_value str_of_object code
                ++ "?event=" ++ format_value str_of_object e'))
  else
    code ← getattr self "code";
    Ok (VStr ("https://discord.gg/" ++ format_value str_of_object code)).

(** [__str__] *)
Definition __str__ (self : gmap string pyval) : result pyval := link self.

End WithEnv.
End InviteData.

Module Sample2.

(** Text for the values whose classes are not embedded. *)
Definition str_of_object (v : pyval) : string := "<" ++ type_name v ++ ">".

Definition StageInstance_from_dict (data : gmap string pyval) (client : pyval)
  : result pyval := Ok (VObj "StageInstance" data).

Definition Application_from_dict (data : gmap string pyval) (client : pyval)
  : result pyval := Ok (VObj "Application" data).

Definition GuildPreview_from_dict (guild : pyval) (client : pyval) : result pyval :=
  match guild with
  | VDict d => Ok (VObj "GuildPreview" d)
  | _ => Err (TypeError "from_dict: data must be a mapping")
  end.

(** The cache builds the user and stores it under its identifier. *)
Definition place_user_data (cache : Cache) (raw : pyval) : result (pyval * Cache) :=
  u ← Sample.user_of raw;
  match u with
  | VObj _ attrs =>
      match attrs !! "id" with
      | Some (VInt n) =>
          Ok (u, {| channel_cache := channel_cache cache;
                    user_cache := <[n := u]> (user_cache cache) |})
      | _ => Err (FormatError "snowflake")
      end
  | _ => Err (TypeError "place_user_data: data must be a mapping")
  end.

Definition _process_dict :=
  InviteData._process_dict StageInstance_from_dict Application_from_dict
    GuildPreview_from_dict place_user_data.

(** An invite as the gateway sends it, with the nested channel, guild and
    inviter. *)
Definition raw_invite : gmap string pyval :=
  <["code" := VStr "hK7x"]>
  (<["channel" := VDict (<["id" := VStr "11"]> {[ "name" := VStr "general" ]})]>
  (<["channel_id" := VStr "999"]>
  (<["guild" := VDict {[ "id" := VStr "5" ]}]>
  (<["inviter" := VDict (<["id" := VStr "42"]> {[ "username" := VStr "ada" ]})]>
  (<["target_event_id" := VStr "0031"]>
  {[ "uses" := VInt 3 ]}))))).

Definition processed (r : outcome (gmap string pyval * Cache))
  : gmap string pyval * Cache :=
  match r with
  | Done x => x
  | Fail _ => (∅, Sample.cache)
  end.

(** A member with a guild avatar and no user. *)
Definition orphan_member : gmap string pyval :=
  <["_avatar" := VStr "a_9f"]> (<["user" := VNone]> (<["nick" := VNone]>
    {[ "_client" := VClient ]})).

End Sample2.

(** An action that leaves the instance it is called on as it was, on
    every outcome. *)
Definition keeps_self {A} (m : M A) : Prop :=
  ∀ w, self (m w).2 = self w.

(* ===================================================================== *)
(** ** Facts about the serializable base *)
(* ===================================================================== *)

Section SerializableFacts.
Implicit Types (schema : list field_descriptor) (d : field_descriptor).
Implicit Types (raw acc inst : gmap string pyval) (k : string).


Lemma build_fields_other schema raw acc inst k :
  build_fields schema raw acc = Ok inst →
  k ∉ (fd_name <$> schema) →
  inst !! k = acc !! k.
Proof.
  revert acc. induction schema as [|d schema IH]; intros acc Hb Hk; simpl in *.
  - by inversion Hb.
  - destruct (field_value d raw) as [v|e]; simpl in Hb; [|done].
    apply not_elem_of_cons in Hk as [Hne Hk].
    rewrite (IH _ Hb Hk). by rewrite lookup_insert_ne.
Qed.

Lemma build_fields_lookup schema raw acc inst d :
  NoDup (fd_name <$> schema) →
  build_fields schema raw acc = Ok inst →
  d ∈ schema →
  ∃ v, field_value d raw = Ok v ∧ inst !! fd_name d = Some v.
Proof.
  revert acc. induction schema as [|d0 schema IH]; intros acc Hnd Hb Hd.
  - by apply elem_of_nil in Hd.
  - simpl in Hb, Hnd. apply NoDup_cons in Hnd as [Hfresh Hnd].
    destruct (field_value d0 raw) as [v|e] eqn:Hv; simpl in Hb; [|done].
    apply elem_of_cons in Hd as [->|Hd].
    + exists v. split; [done|].
      rewrite (build_fields_other _ _ _ _ _ Hb Hfresh).
      apply lookup_insert_eq.
    + by apply (IH _ Hnd Hb).
Qed.

Lemma build_fields_err schema raw acc d e :
  d ∈ schema →
  field_value d raw = Err e →
  ∃ e', build_fields schema raw acc = Err e'.
Proof.
  revert acc. induction schema as [|d0 schema IH]; intros acc Hd He.
  - by apply elem_of_nil in Hd.
  - simpl. destruct (field_value d0 raw) as [v|e0] eqn:Hv; simpl; [|by eexists].
    apply elem_of_cons in Hd as [->|Hd]; [congruence|].
    by apply IH.
Qed.

Lemma build_fields_total schema raw acc :
  (∀ d, d ∈ schema → ∃ v, field_value d raw = Ok v) →
  ∃ inst, build_fields schema raw acc = Ok inst.
Proof.
  revert acc. induction schema as [|d schema IH]; intros acc Hall; simpl.
  - by eexists.
  - destruct (Hall d) as [v Hv]; [by left|]. rewrite Hv. simpl.
    apply IH. intros d' Hd'. apply Hall. by right.
Qed.




Lemma bind_fold_notin c schema inst k :
  k ∉ (fd_name <$> schema) →
  foldl (bind_field c) inst schema !! k = inst !! k.
Proof.
  revert inst. induction schema as [|d schema IH]; intros inst Hk; simpl; [done|].
  simpl in Hk. apply not_elem_of_cons in Hk as [Hne Hk].
  rewrite IH by done. unfold bind_field.
  destruct (fd_add_client d); [|done].
  destruct (inst !! fd_name d); [|done].
  by rewrite lookup_insert_ne.
Qed.

Lemma bind_fold_in c schema inst d :
  NoDup (fd_name <$> schema) →
  d ∈ schema →
  foldl (bind_field c) inst schema !! fd_name d =
    (if fd_add_client d then attach_client c else fun v => v) <$> inst !! fd_name d.
Proof.
  revert inst. induction schema as [|d0 schema IH]; intros inst Hnd Hd.
  - by apply elem_of_nil in Hd.
  - simpl in Hnd. apply NoDup_cons in Hnd as [Hfresh Hnd]. simpl.
    apply elem_of_cons in Hd as [->|Hd].
    + rewrite bind_fold_notin by done. unfold bind_field.
      destruct (fd_add_client d0); [|by destruct (inst !! fd_name d0)].
      destruct (inst !! fd_name d0) eqn:Hv; rewrite ?Hv; [|done].
      by rewrite lookup_insert_eq.
    + rewrite IH by done.
      assert (fd_name d0 ≠ fd_name d) as Hne.
      { intros Heq. apply Hfresh. rewrite Heq. by apply list_elem_of_fmap_2. }
      unfold bind_field at 1.
      destruct (fd_add_client d0); [|done].
      destruct (inst !! fd_name d0); [|done].
      by rewrite lookup_insert_ne.
Qed.

(** Every declared field of a client-bound instance holds the converted
    value of its wire key, or its default, with the client attached
    where the descriptor asks for it. *)
Lemma fromJSON_client_lookup schema raw c inst d :
  NoDup (fd_name <$> schema) →
  "_client" ∉ (fd_name <$> schema) →
  fromJSON_client schema raw c = Ok inst →
  d ∈ schema →
  ∃ v, field_value d raw = Ok v ∧
       inst !! fd_name d = Some (if fd_add_client d then attach_client c v else v).
Proof.
  intros Hnd Hc Hb Hd. unfold fromJSON_client, fromJSON in Hb.
  destruct (build_fields schema raw _) as [i|e] eqn:Hi; simpl in Hb; [|done].
  inversion Hb; subst inst; clear Hb.
  destruct (build_fields_lookup _ _ _ _ _ Hnd Hi Hd) as (v & Hv & Hl).
  exists v. split; [done|].
  rewrite lookup_insert_ne.
  - rewrite bind_fold_in by done. rewrite Hl. simpl.
    by destruct (fd_add_client d).
  - intros Heq. apply Hc. rewrite Heq. by apply list_elem_of_fmap_2.
Qed.

Lemma fromJSON_client_attr schema raw c inst :
  fromJSON_client schema raw c = Ok inst →
  inst !! "_client" = Some c.
Proof.
  unfold fromJSON_client. destruct (fromJSON schema raw); simpl; [|done].
  intros [= <-]. apply lookup_insert_eq.
Qed.

Lemma fromJSON_client_err schema raw c d e :
  d ∈ schema →
  field_value d raw = Err e →
  ∃ e', fromJSON_client schema raw c = Err e'.
Proof.
  intros Hd He. unfold fromJSON_client, fromJSON.
  destruct (build_fields_err schema raw
              {[ "_extras" := VDict (extra_data schema raw) ]} d e Hd He)
    as [e' ->].
  by exists e'.
Qed.

End SerializableFacts.

Ltac by_computation := apply (bool_decide_unpack _); vm_compute; reflexivity.

(* ===================================================================== *)
(** ** Round trip through the serializable base *)
(* ===================================================================== *)
















(* ===================================================================== *)
(** ** Action methods on an instance with no client *)
(* ===================================================================== *)

Ltac run_method :=
  unfold mbind, M_bind, mret, M_ret, get_self, lift, raise; simpl.

(** [Member.ban] has no guard of its own: on an instance with no client it
    stops at the attribute lookup on the null reference. *)
Lemma ban_without_client (E : Env) (w : world) guild_id reason delete_message_days :
  self w !! "_client" = Some VNone →
  Member.ban E guild_id reason delete_message_days w =
    (Err (no_attribute "NoneType" "create_guild_ban"), w).
Proof.
  intros Hc. unfold Member.ban. run_method.
  unfold getattr. rewrite Hc. reflexivity.
Qed.

(** C1 (as amended).  On an instance whose client reference is null, the
    guarded methods of Member (kick, add_role, remove_role, send, modify,
    add_to_thread) raise the missing-context error before anything else:
    no transport call is recorded and the instance is untouched.
    [Invite.delete] has no guard: it fails with the attribute error of the
    null reference, and records no transport call either. *)
Theorem C1_missing_context (E : Env) (w : world) :
  self w !! "_client" = Some VNone →
  (∀ guild_id reason,
     Member.kick E guild_id reason w = (Err MissingContext, w)) ∧
  (∀ role guild_id reason,
     Member.add_role E role guild_id reason w = (Err MissingContext, w)) ∧
  (∀ role guild_id reason,
     Member.remove_role E role guild_id reason w = (Err MissingContext, w)) ∧
  (∀ content components tts files embeds allowed_mentions,
     Member.send E content components tts files embeds allowed_mentions w =
       (Err MissingContext, w)) ∧
  (∀ guild_id nick roles mute deaf channel_id communication_disabled_until reason,
     Member.modify E guild_id nick roles mute deaf channel_id
       communication_disabled_until reason w = (Err MissingContext, w)) ∧
  (∀ thread_id,
     Member.add_to_thread E thread_id w = (Err MissingContext, w)) ∧
  (∀ reason,
     Invite.delete E reason w = (Err (no_attribute "NoneType" "http"), w)).
Proof.
  intros Hc.
  repeat split; intros;
    unfold Member.kick, Member.add_role, Member.remove_role, Member.send,
      Member.modify, Member.add_to_thread, Invite.delete;
    run_method; unfold getattr; rewrite Hc; reflexivity.
Qed.

Lemma C1_missing_context_witness :
  let w := World (Sample.member VNone) [] in
  self w !! "_client" = Some VNone ∧
  Member.kick Sample.env (VInt 1) VNone w = (Err MissingContext, w).
Proof.
  intros w.
  assert (self w !! "_client" = Some VNone) as Hc by (vm_compute; reflexivity).
  exact (conj Hc (proj1 (C1_missing_context Sample.env w Hc) (VInt 1) VNone)).
Defined.

(** C1 as stated fails: with no client, [Member.ban] and [Invite.delete]
    raise an error that is not the missing-context error. *)
Lemma C1_unguarded_methods :
  let wm := World (Sample.member VNone) [] in
  let wi := World (Sample.invite VNone) [] in
  self wm !! "_client" = Some VNone ∧
  self wi !! "_client" = Some VNone ∧
  Member.ban Sample.env (VInt 1) VNone (VInt 0) wm =
    (Err (AttributeError "'NoneType' object has no attribute 'create_guild_ban'"), wm) ∧
  Invite.delete Sample.env VMissing wi =
    (Err (AttributeError "'NoneType' object has no attribute 'http'"), wi) ∧
  AttributeError "'NoneType' object has no attribute 'create_guild_ban'"
    ≠ MissingContext ∧
  AttributeError "'NoneType' object has no attribute 'http'" ≠ MissingContext.
Proof.
  repeat split; try (vm_compute; reflexivity); discriminate.
Qed.

(* ===================================================================== *)
(** ** Computed properties of Member *)
(* ===================================================================== *)

Lemma truthy_str (s : string) : truthy (VStr s) = true ↔ s ≠ "".
Proof.
  simpl. destruct (String.eqb_spec s ""); simpl; split; intros; congruence.
Qed.

(** C9.  [name] is a function of the attribute store alone (no client, no
    trace).  It is the nickname when [nick] is a non-empty string;
    when [nick] is null or empty it is the username of the nested user,
    and null when there is no user. *)
Theorem C9_name (self : gmap string pyval) :
  (∀ s, self !! "nick" = Some (VStr s) → s ≠ "" →
        Member.name self = Ok (VStr s)) ∧
  (∀ n cls attrs u,
     self !! "nick" = Some n → n = VNone ∨ n = VStr "" →
     self !! "user" = Some (VObj cls attrs) → attrs !! "username" = Some u →
     Member.name self = Ok u) ∧
  (∀ n, self !! "nick" = Some n → n = VNone ∨ n = VStr "" →
        self !! "user" = Some VNone →
        Member.name self = Ok VNone).
Proof.
  repeat split.
  - intros s Hn Hs. unfold Member.name, getattr. rewrite Hn. simpl.
    apply truthy_str in Hs. simpl in Hs. by rewrite Hs.
  - intros n cls attrs u Hn Hfalsy Hu Hname.
    unfold Member.name, getattr. rewrite Hn. simpl.
    destruct Hfalsy as [-> | ->]; simpl; rewrite Hu; simpl; by rewrite Hname.
  - intros n Hn Hfalsy Hu.
    unfold Member.name, getattr. rewrite Hn. simpl.
    destruct Hfalsy as [-> | ->]; simpl; by rewrite Hu.
Qed.

Lemma C9_name_witness :
  let m := Sample.renamed_member VClient in
  m !! "nick" = Some (VStr "countess") ∧ "countess" ≠ "" ∧
  Member.name m = Ok (VStr "countess").
Proof.
  intros m.
  assert (m !! "nick" = Some (VStr "countess")) as Hn by (vm_compute; reflexivity).
  assert ("countess" ≠ "") as Hs by discriminate.
  exact (conj Hn (conj Hs (proj1 (C9_name m) "countess" Hn Hs))).
Defined.

Ltac in_schema :=
  repeat first [ by (apply elem_of_cons; left) | apply elem_of_cons; right ].

Lemma Member_schema_names (E : Env) :
  NoDup (fd_name <$> Member.schema E) ∧ "_client" ∉ (fd_name <$> Member.schema E).
Proof. split; by_computation. Qed.

Lemma Member_new_inv (E : Env) raw c m :
  Member.new E raw c = Ok m → fromJSON_client (Member.schema E) raw c = Ok m.
Proof. unfold Member.new. by destruct (raw !! "_client"). Qed.

(** C7 (as amended).  For a Member built from a raw mapping, [_avatar] is
    what the wire key "avatar" holds (null when the key is absent).  The
    public [avatar] is [_avatar] when that is true in a condition (for a
    string: non-empty); when [_avatar] is null or empty it is the avatar
    of the nested user, and null when the user is null or has none.  In
    particular, with "avatar" null and a user whose avatar is "abc123",
    the public avatar is "abc123". *)
Theorem C7_avatar (E : Env) (raw : gmap string pyval) (c : pyval)
    (m : gmap string pyval) :
  Member.new E raw c = Ok m →
  m !! "_avatar" = Some (default VNone (raw !! "avatar")) ∧
  (∀ a, m !! "_avatar" = Some a → truthy a = true → Member.avatar m = Ok a) ∧
  (∀ a, m !! "_avatar" = Some a → truthy a = false →
        ∃ u, m !! "user" = Some u ∧
             Member.avatar m = Ok (getattr_default u "avatar" VNone)) ∧
  (∀ cls attrs,
     raw !! "avatar" = Some VNone →
     m !! "user" = Some (VObj cls attrs) →
     attrs !! "avatar" = Some (VStr "abc123") →
     Member.avatar m = Ok (VStr "abc123")).
Proof.
  intros Hnew. apply Member_new_inv in Hnew.
  destruct (Member_schema_names E) as [Hnd Hc].
  assert (m !! "_avatar" = Some (default VNone (raw !! "avatar"))) as Hav.
  { destruct (fromJSON_client_lookup _ _ _ _
                (mkfield "_avatar" "avatar" identity_converter (Some VNone) false)
                Hnd Hc Hnew) as (v & Hv & Hl); [in_schema|].
    simpl in Hl. rewrite Hl. f_equal.
    unfold field_value in Hv. simpl in Hv.
    destruct (raw !! "avatar"); simpl; unfold identity_converter in Hv; congruence. }
  assert (∃ u, m !! "user" = Some u) as [u Hu].
  { destruct (fromJSON_client_lookup _ _ _ _
                (mkfield "user" "user" (User E) (Some VNone) true)
                Hnd Hc Hnew) as (v & _ & Hl); [in_schema|].
    simpl in Hl. by eexists. }
  split; [exact Hav|]. split; [|split].
  - intros a Ha Ht. unfold Member.avatar, getattr. rewrite Ha. simpl. by rewrite Ht.
  - intros a Ha Ht. exists u. split; [done|].
    unfold Member.avatar, getattr. rewrite Ha. simpl. rewrite Ht, Hu. done.
  - intros cls attrs Hraw Huser Hattr.
    rewrite Hraw in Hav. simpl in Hav.
    unfold Member.avatar, getattr. rewrite Hav. simpl. rewrite Huser. simpl.
    by rewrite Hattr.
Qed.

Lemma C7_avatar_witness :
  let raw := Sample.member_json in
  let m := Sample.renamed_member VClient in
  Member.new Sample.env raw VClient = Ok m ∧
  raw !! "avatar" = Some VNone ∧
  m !! "user" = Some (VObj "User" (Sample.user_attrs m)) ∧
  Sample.user_attrs m !! "avatar" = Some (VStr "abc123") ∧
  Member.avatar m = Ok (VStr "abc123").
Proof.
  intros raw m.
  assert (Member.new Sample.env raw VClient = Ok m) as Hnew by reflexivity.
  assert (raw !! "avatar" = Some VNone) as Hraw by (vm_compute; reflexivity).
  assert (m !! "user" = Some (VObj "User" (Sample.user_attrs m))) as Hu
    by reflexivity.
  assert (Sample.user_attrs m !! "avatar" = Some (VStr "abc123")) as Ha
    by (vm_compute; reflexivity).
  refine (conj Hnew (conj Hraw (conj Hu (conj Ha _)))).
  exact (proj2 (proj2 (proj2 (C7_avatar Sample.env raw VClient m Hnew)))
           "User" (Sample.user_attrs m) Hraw Hu Ha).
Defined.

(** C7 as stated fails: an [_avatar] that is the empty string is not null,
    and the public [avatar] is the avatar of the user, not [_avatar]. *)
Lemma C7_empty_avatar_falls_back :
  let raw := <["avatar" := VStr ""]> Sample.member_json in
  let m := Sample.built (Member.new Sample.env raw VClient) in
  Member.new Sample.env raw VClient = Ok m ∧
  m !! "_avatar" = Some (VStr "") ∧
  VStr "" ≠ VNone ∧
  Member.avatar m = Ok (VStr "abc123") ∧
  VStr "abc123" ≠ VStr "".
Proof.
  intros raw m.
  split; [reflexivity|].
  split; [vm_compute; reflexivity|].
  split; [discriminate|].
  split; [vm_compute; reflexivity|discriminate].
Qed.

(* ===================================================================== *)
(** ** Relational properties of Invite *)
(* ===================================================================== *)

(** C8.  On an Invite with a client, [channel], [inviter] and
    [target_user] are functions of the instance and of the cache as it is
    when they are read (no trace, so no transport call), and they never
    raise: [channel] is the cache entry of [_channel_id]; [inviter] and
    [target_user] are null when the identifier is null (or otherwise
    false), and the cache entry of the identifier when there is one.  An
    entity that is not resident in the cache reads as null. *)
Theorem C8_relations (cache : Cache) (self : gmap string pyval)
    (cid iid tid : pyval) :
  self !! "_client" = Some VClient →
  self !! "_channel_id" = Some cid →
  self !! "_inviter_id" = Some iid →
  self !! "_target_user_id" = Some tid →
  Invite.channel cache self = Ok (get_channel cache cid) ∧
  Invite.inviter cache self =
    Ok (if Invite.truthy_c iid then get_user cache iid else VNone) ∧
  Invite.target_user cache self =
    Ok (if Invite.truthy_c tid then get_user cache tid else VNone) ∧
  (∀ n, cid = VInt n → channel_cache cache !! n = None →
        Invite.channel cache self = Ok VNone) ∧
  (iid = VNone → Invite.inviter cache self = Ok VNone) ∧
  (∀ n, iid = VInt n → user_cache cache !! n = None →
        Invite.inviter cache self = Ok VNone) ∧
  (tid = VNone → Invite.target_user cache self = Ok VNone) ∧
  (∀ n, tid = VInt n → user_cache cache !! n = None →
        Invite.target_user cache self = Ok VNone).
Proof.
  intros Hc Hcid Hiid Htid.
  assert (Invite.channel cache self = Ok (get_channel cache cid)) as Hch.
  { unfold Invite.channel, getattr. rewrite Hc. simpl. by rewrite Hcid. }
  assert (Invite.inviter cache self =
            Ok (if Invite.truthy_c iid then get_user cache iid else VNone)) as Hin.
  { unfold Invite.inviter, getattr. rewrite Hiid. simpl.
    destruct (Invite.truthy_c iid); [|done]. by rewrite Hc. }
  assert (Invite.target_user cache self =
            Ok (if Invite.truthy_c tid then get_user cache tid else VNone)) as Htu.
  { unfold Invite.target_user, getattr. rewrite Htid. simpl.
    destruct (Invite.truthy_c tid); [|done]. by rewrite Hc. }
  split; [exact Hch|]. split; [exact Hin|]. split; [exact Htu|].
  split; [|split; [|split; [|split]]].
  - intros n -> Hn. rewrite Hch. unfold get_channel. by rewrite Hn.
  - intros ->. by rewrite Hin.
  - intros n -> Hn. rewrite Hin. unfold get_user. rewrite Hn.
    by destruct (Invite.truthy_c (VInt n)).
  - intros ->. by rewrite Htu.
  - intros n -> Hn. rewrite Htu. unfold get_user. rewrite Hn.
    by destruct (Invite.truthy_c (VInt n)).
Qed.

Lemma C8_relations_witness :
  let inv := Sample.invite VClient in
  inv !! "_client" = Some VClient ∧
  inv !! "_channel_id" = Some (VInt 11) ∧
  inv !! "_inviter_id" = Some (VInt 42) ∧
  inv !! "_target_user_id" = Some VNone ∧
  Invite.channel Sample.cache inv = Ok (VObj "Channel" {[ "id" := VInt 11 ]}) ∧
  Invite.inviter Sample.cache inv = Ok VNone ∧
  Invite.target_user Sample.cache inv = Ok VNone.
Proof.
  intros inv.
  assert (inv !! "_client" = Some VClient) as Hc by (vm_compute; reflexivity).
  assert (inv !! "_channel_id" = Some (VInt 11)) as Hcid by (vm_compute; reflexivity).
  assert (inv !! "_inviter_id" = Some (VInt 42)) as Hiid by (vm_compute; reflexivity).
  assert (inv !! "_target_user_id" = Some VNone) as Htid by (vm_compute; reflexivity).
  destruct (C8_relations Sample.cache inv _ _ _ Hc Hcid Hiid Htid)
    as (Hch & _ & _ & _ & _ & Hin & Htu & _).
  refine (conj Hc (conj Hcid (conj Hiid (conj Htid (conj _ (conj _ _)))))).
  - rewrite Hch. vm_compute. reflexivity.
  - apply (Hin 42); [reflexivity | vm_compute; reflexivity].
  - apply Htu. reflexivity.
Defined.

(* ===================================================================== *)
(** ** Member.modify and Member.send *)
(* ===================================================================== *)

Lemma copy_slots_calls slots member w :
  calls (snd (Member.copy_slots slots member w)) = calls w.
Proof.
  revert w. induction slots as [|attr slots IH]; intros w; [done|].
  simpl. unfold mbind, M_bind, lift, set_self. simpl.
  destruct (getattr member attr) as [v|e]; simpl; [|done].
  rewrite IH. done.
Qed.

(** The loop over the slots, when the new object has every slot: each slot
    of [self] takes the value of the new object, everything else stays. *)
Lemma copy_slots_ok slots member w :
  (∀ a, a ∈ slots → is_Some (member !! a)) →
  ∃ s', Member.copy_slots slots member w = (Ok tt, World s' (calls w)) ∧
        ∀ k, s' !! k = if decide (k ∈ slots) then member !! k else self w !! k.
Proof.
  revert w. induction slots as [|attr slots IH]; intros w Hall.
  - exists (self w). split; [by destruct w|].
    intros k. by rewrite decide_False by apply not_elem_of_nil.
  - destruct (Hall attr) as [v Hv]; [by left|].
    destruct (IH (World (setattr (self w) attr v) (calls w))) as (s' & Hrun & Hs').
    { intros a Ha. apply Hall. by right. }
    exists s'. split.
    + simpl. unfold mbind, M_bind, lift, set_self, getattr. rewrite Hv.
      exact Hrun.
    + intros k. rewrite Hs'. simpl. unfold setattr.
      destruct (decide (k ∈ slots)) as [Hin|Hnin].
      * rewrite decide_True; [done|by right].
      * destruct (decide (k = attr)) as [->|Hne].
        -- rewrite decide_True by (by left). by rewrite lookup_insert_eq.
        -- rewrite decide_False by (by apply not_elem_of_cons).
           by rewrite lookup_insert_ne.
Qed.

(** A Member the constructor returns has every slot. *)
Lemma Member_new_slots (E : Env) kw c m :
  Member.new E kw c = Ok m →
  ∀ a, a ∈ Member.__slots__ E → is_Some (m !! a).
Proof.
  intros Hnew a Ha. apply Member_new_inv in Hnew.
  destruct (Member_schema_names E) as [Hnd Hc].
  unfold Member.__slots__ in Ha. apply list_elem_of_fmap in Ha as (d & -> & Hd).
  destruct (fromJSON_client_lookup _ _ _ _ d Hnd Hc Hnew Hd) as (v & _ & Hl).
  by eexists.
Qed.

(** What [modify] does once the client and the user identifier are there:
    one call to the transport, then the construction of the new Member,
    then the loop over the slots. *)
Lemma modify_run E w guild_id nick roles mute deaf channel_id cdu reason uid :
  self w !! "_client" = Some VClient →
  Member.user_id E (self w) = Ok uid →
  Member.modify E guild_id nick roles mute deaf channel_id cdu reason w =
    let c := modify_member (VInt uid) guild_id
               (VDict (Member.modify_payload nick roles mute deaf channel_id cdu))
               reason in
    let w1 := World (self w) (calls w ++ [c]) in
    match transport E (calls w) c with
    | Err e => (Err e, w1)
    | Ok res =>
        match kwargs_of res ≫= (fun kw => Member.new E kw VClient) with
        | Err e => (Err e, w1)
        | Ok member =>
            match Member.copy_slots (Member.__slots__ E) member w1 with
            | (Ok _, w2) => (Ok member, w2)
            | (Err e, w2) => (Err e, w2)
            end
        end
    end.
Proof.
  intros Hc Hu.
  unfold Member.modify, mbind at 1 2 3 4 5 6 7, M_bind, get_self, lift, getattr.
  rewrite Hc. cbn [truthy negb http_method]. rewrite Hu. unfold await.
  cbv zeta. cbn [self calls].
  destruct (transport E _ _) as [res|e]; [|done].
  destruct (kwargs_of res ≫= _) as [m|e]; [|done].
  destruct (Member.copy_slots _ _ _) as [[[]|e] w2]; done.
Qed.

Lemma modify_payload_lookup nick roles mute deaf channel_id cdu k :
  Member.modify_payload nick roles mute deaf channel_id cdu !! k =
    if decide (k = "nick") then (if is_missing nick then None else Some nick)
    else if decide (k = "roles") then (if is_missing roles then None else Some roles)
    else if decide (k = "channel_id") then
           (if is_missing channel_id then None else Some channel_id)
    else if decide (k = "mute") then (if is_missing mute then None else Some mute)
    else if decide (k = "deaf") then (if is_missing deaf then None else Some deaf)
    else if decide (k = "communication_disabled_until") then
           (if is_missing cdu then None else Some cdu)
    else None.
Proof.
  unfold Member.modify_payload.
  repeat case_decide; subst;
    destruct (is_missing nick), (is_missing roles), (is_missing channel_id),
      (is_missing mute), (is_missing deaf), (is_missing cdu);
    simplify_map_eq; done.
Qed.

Lemma modify_calls E w guild_id nick roles mute deaf channel_id cdu reason uid :
  self w !! "_client" = Some VClient →
  Member.user_id E (self w) = Ok uid →
  calls (snd (Member.modify E guild_id nick roles mute deaf channel_id cdu reason w)) =
    (calls w ++
       [modify_member (VInt uid) guild_id
          (VDict (Member.modify_payload nick roles mute deaf channel_id cdu))
          reason])%list.
Proof.
  intros Hc Hu. rewrite (modify_run _ _ _ _ _ _ _ _ _ _ _ Hc Hu). cbv zeta.
  destruct (transport E _ _) as [res|e]; [|done].
  destruct (kwargs_of res ≫= _) as [m|e]; [|done].
  match goal with
  | |- context [Member.copy_slots ?s ?m ?w1] =>
      pose proof (copy_slots_calls s m w1) as Hcs;
      destruct (Member.copy_slots s m w1) as [[[]|e] w2]
  end; exact Hcs.
Qed.

Lemma send_payload_keys E content components tts files embeds allowed_mentions p f :
  Member.send_payload E content components tts files embeds allowed_mentions
    = Ok (p, f) →
  dom p = ({[ "content"; "tts"; "attachments"; "embeds"; "components";
              "allowed_mentions" ]} : gset string) ∧
  p !! "content" = Some (if is_missing content then VStr "" else content) ∧
  p !! "tts" = Some (if is_missing tts then VBool false else tts) ∧
  p !! "allowed_mentions" =
    Some (if is_missing allowed_mentions then VDict ∅ else allowed_mentions) ∧
  (is_missing embeds = true → p !! "embeds" = Some (VList [])) ∧
  (is_missing components = true → p !! "components" = Some (VList [])) ∧
  (is_missing files = true → p !! "attachments" = Some (VList [])).
Proof.
  unfold Member.send_payload. intros H.
  destruct (if negb (truthy embeds) || is_missing embeds then _ else _)
    as [_embeds|e] eqn:Hemb; simpl in H; [|done].
  destruct (if negb (truthy components) || is_missing components then _ else _)
    as [_components|e] eqn:Hcomp; simpl in H; [|done].
  destruct (if negb (truthy files) || is_missing files then _ else _)
    as [[_files files']|e] eqn:Hfiles; simpl in H; [|done].
  inversion H; subst p f; clear H.
  split; [rewrite !dom_insert_L, dom_empty_L; set_solver|].
  repeat split; try by simplify_map_eq.
  - intros Hm. rewrite Hm, orb_true_r in Hemb. inversion Hemb. by simplify_map_eq.
  - intros Hm. rewrite Hm, orb_true_r in Hcomp. inversion Hcomp. by simplify_map_eq.
  - intros Hm. rewrite Hm, orb_true_r in Hfiles. inversion Hfiles. by simplify_map_eq.
Qed.

Lemma bind_run {A B} (m : M A) (f : A → M B) (w : world) :
  (m ≫= f) w =
    match m w with
    | (Ok a, w') => f a w'
    | (Err e, w') => (Err e, w')
    end.
Proof. reflexivity. Qed.

Ltac mstep :=
  rewrite bind_run; unfold lift, get_self, await; cbv beta iota; cbn [self calls].

Lemma send_calls E w content components tts files embeds allowed_mentions
    p f uid kw ch cid :
  self w !! "_client" = Some VClient →
  Member.send_payload E content components tts files embeds allowed_mentions
    = Ok (p, f) →
  Member.user_id E (self w) = Ok uid →
  transport E (calls w) (create_dm (VInt uid)) = Ok (VDict kw) →
  Channel E kw = Ok ch →
  (i ← vgetattr ch "id"; py_int E i) = Ok cid →
  calls (snd (Member.send E content components tts files embeds allowed_mentions w)) =
    (calls w ++ [create_dm (VInt uid); create_message (VInt cid) (VDict p) f])%list.
Proof.
  intros Hc Hp Hu Hdm Hch Hcid.
  unfold Member.send. mstep. mstep. unfold getattr. rewrite Hc.
  cbn [truthy negb]. mstep. rewrite Hp. mstep. cbn [http_method]. mstep.
  rewrite Hu. mstep. rewrite Hdm. mstep. cbn [kwargs_of mbind result_bind].
  rewrite Hch. mstep. mstep. rewrite Hcid. mstep.
  destruct (transport E (_ ++ _) _); cbn [snd calls];
    by rewrite <- app_assoc.
Qed.

(** C2 (as amended).  [modify] puts into the payload exactly the
    parameters that are not the unset marker, each under its own name, and
    that payload is the one the transport receives.  [send] always sends
    the six keys content, tts, attachments, embeds, components and
    allowed_mentions: a parameter left unset goes out as the empty string,
    false, the empty list or the empty mapping. *)
Theorem C2_payload_keys (E : Env) :
  (∀ nick roles mute deaf channel_id communication_disabled_until k,
     Member.modify_payload nick roles mute deaf channel_id
       communication_disabled_until !! k =
       if decide (k = "nick") then (if is_missing nick then None else Some nick)
       else if decide (k = "roles") then
              (if is_missing roles then None else Some roles)
       else if decide (k = "channel_id") then
              (if is_missing channel_id then None else Some channel_id)
       else if decide (k = "mute") then (if is_missing mute then None else Some mute)
       else if decide (k = "deaf") then (if is_missing deaf then None else Some deaf)
       else if decide (k = "communication_disabled_until") then
              (if is_missing communication_disabled_until then None
               else Some communication_disabled_until)
       else None) ∧
  (∀ w guild_id nick roles mute deaf channel_id communication_disabled_until
     reason uid,
     self w !! "_client" = Some VClient →
     Member.user_id E (self w) = Ok uid →
     calls (snd (Member.modify E guild_id nick roles mute deaf channel_id
                   communication_disabled_until reason w)) =
       (calls w ++
          [modify_member (VInt uid) guild_id
             (VDict (Member.modify_payload nick roles mute deaf channel_id
                       communication_disabled_until))
             reason])%list) ∧
  (∀ content components tts files embeds allowed_mentions p f,
     Member.send_payload E content components tts files embeds allowed_mentions
       = Ok (p, f) →
     dom p = ({[ "content"; "tts"; "attachments"; "embeds"; "components";
                 "allowed_mentions" ]} : gset string) ∧
     p !! "content" = Some (if is_missing content then VStr "" else content) ∧
     p !! "tts" = Some (if is_missing tts then VBool false else tts) ∧
     p !! "allowed_mentions" =
       Some (if is_missing allowed_mentions then VDict ∅ else allowed_mentions) ∧
     (is_missing embeds = true → p !! "embeds" = Some (VList [])) ∧
     (is_missing components = true → p !! "components" = Some (VList [])) ∧
     (is_missing files = true → p !! "attachments" = Some (VList []))) ∧
  (∀ w content components tts files embeds allowed_mentions p f uid kw ch cid,
     self w !! "_client" = Some VClient →
     Member.send_payload E content components tts files embeds allowed_mentions
       = Ok (p, f) →
     Member.user_id E (self w) = Ok uid →
     transport E (calls w) (create_dm (VInt uid)) = Ok (VDict kw) →
     Channel E kw = Ok ch →
     (i ← vgetattr ch "id"; py_int E i) = Ok cid →
     calls (snd (Member.send E content components tts files embeds
                   allowed_mentions w)) =
       (calls w ++ [create_dm (VInt uid);
                    create_message (VInt cid) (VDict p) f])%list).
Proof.
  split; [|split; [|split]].
  - intros. apply modify_payload_lookup.
  - intros. by apply modify_calls.
  - intros. by eapply send_payload_keys.
  - intros. by eapply send_calls.
Qed.

Lemma C2_payload_keys_witness :
  let w := World (Sample.member VClient) [] in
  self w !! "_client" = Some VClient ∧
  Member.user_id Sample.env (self w) = Ok 42 ∧
  calls (snd (Member.modify Sample.env (VInt 1) (VStr "countess") VMissing VMissing
                VMissing VMissing VMissing VNone w)) =
    [modify_member (VInt 42) (VInt 1) (VDict {[ "nick" := VStr "countess" ]}) VNone].
Proof.
  intros w.
  assert (self w !! "_client" = Some VClient) as Hc by (vm_compute; reflexivity).
  assert (Member.user_id Sample.env (self w) = Ok 42) as Hu
    by (vm_compute; reflexivity).
  refine (conj Hc (conj Hu _)).
  exact (proj1 (proj2 (C2_payload_keys Sample.env)) w (VInt 1) (VStr "countess")
           VMissing VMissing VMissing VMissing VMissing VNone 42 Hc Hu).
Defined.

(** C2 as stated fails for [send]: with every parameter left unset the
    payload given to the transport still has all six keys. *)
Lemma C2_send_keeps_unset_keys :
  let w := World (Sample.member VClient) [] in
  ∃ p,
    calls (snd (Member.send Sample.env VMissing VMissing VMissing VMissing VMissing
                  VMissing w)) =
      [create_dm (VInt 42); create_message (VInt 77) (VDict p) VMissing] ∧
    p !! "content" = Some (VStr "") ∧
    p !! "tts" = Some (VBool false) ∧
    p !! "attachments" = Some (VList []) ∧
    p !! "embeds" = Some (VList []) ∧
    p !! "components" = Some (VList []) ∧
    p !! "allowed_mentions" = Some (VDict ∅).
Proof.
  eexists. split; [vm_compute; reflexivity|].
  repeat split; vm_compute; reflexivity.
Qed.

(** C4.  When the transport answers the modify call with a mapping and a
    Member can be built from it, [modify] returns that new Member, and
    afterwards every attribute in the slots of the instance is the
    attribute of the new Member: all of them, whichever parameters were
    passed.  Attributes outside the slots are as before. *)
Theorem C4_modify_replaces_all_slots (E : Env) (w : world)
    (guild_id nick roles mute deaf channel_id communication_disabled_until
       reason : pyval)
    (uid : Z) (res member : gmap string pyval) :
  self w !! "_client" = Some VClient →
  Member.user_id E (self w) = Ok uid →
  transport E (calls w)
    (modify_member (VInt uid) guild_id
       (VDict (Member.modify_payload nick roles mute deaf channel_id
                 communication_disabled_until))
       reason) = Ok (VDict res) →
  Member.new E res VClient = Ok member →
  ∃ w',
    Member.modify E guild_id nick roles mute deaf channel_id
      communication_disabled_until reason w = (Ok member, w') ∧
    (∀ attr, attr ∈ Member.__slots__ E → self w' !! attr = member !! attr) ∧
    (∀ attr, attr ∉ Member.__slots__ E → self w' !! attr = self w !! attr).
Proof.
  intros Hc Hu Hres Hnew.
  rewrite (modify_run _ _ _ _ _ _ _ _ _ _ _ Hc Hu). cbv zeta.
  rewrite Hres. cbn [kwargs_of mbind result_bind]. rewrite Hnew.
  match goal with
  | |- context [Member.copy_slots ?s ?m ?w1] =>
      destruct (copy_slots_ok s m w1 (Member_new_slots E _ _ _ Hnew))
        as (s' & Hrun & Hs')
  end.
  rewrite Hrun. eexists. split; [reflexivity|].
  cbn [self] in *. split; intros attr Hattr; rewrite Hs'.
  - by rewrite decide_True.
  - by rewrite decide_False.
Qed.

Lemma C4_modify_replaces_all_slots_witness :
  let w := World (Sample.member VClient) [] in
  let member := Sample.renamed_member VClient in
  self w !! "_client" = Some VClient ∧
  Member.user_id Sample.env (self w) = Ok 42 ∧
  Member.new Sample.env Sample.member_json VClient = Ok member ∧
  ∃ w',
    Member.modify Sample.env (VInt 1) (VStr "countess") VMissing VMissing VMissing
      VMissing VMissing VNone w = (Ok member, w') ∧
    (∀ attr, attr ∈ Member.__slots__ Sample.env →
             self w' !! attr = member !! attr) ∧
    (∀ attr, attr ∉ Member.__slots__ Sample.env →
             self w' !! attr = self w !! attr).
Proof.
  intros w member.
  assert (self w !! "_client" = Some VClient) as Hc by (vm_compute; reflexivity).
  assert (Member.user_id Sample.env (self w) = Ok 42) as Hu
    by (vm_compute; reflexivity).
  assert (Member.new Sample.env Sample.member_json VClient = Ok member) as Hnew
    by reflexivity.
  refine (conj Hc (conj Hu (conj Hnew _))).
  exact (C4_modify_replaces_all_slots Sample.env w (VInt 1) (VStr "countess")
           VMissing VMissing VMissing VMissing VMissing VNone 42
           Sample.member_json member Hc Hu eq_refl Hnew).
Defined.


(** C5.  When the transport raises on the modify call, [modify] raises
    that same error and the instance is exactly as before the call; the
    trace holds the one call that failed. *)
Theorem C5_modify_transport_error (E : Env) (w : world)
    (guild_id nick roles mute deaf channel_id communication_disabled_until
       reason : pyval)
    (uid : Z) (e : exn) :
  self w !! "_client" = Some VClient →
  Member.user_id E (self w) = Ok uid →
  transport E (calls w)
    (modify_member (VInt uid) guild_id
       (VDict (Member.modify_payload nick roles mute deaf channel_id
                 communication_disabled_until))
       reason) = Err e →
  ∃ w',
    Member.modify E guild_id nick roles mute deaf channel_id
      communication_disabled_until reason w = (Err e, w') ∧
    self w' = self w ∧
    (∀ attr, self w' !! attr = self w !! attr) ∧
    calls w' =
      (calls w ++
         [modify_member (VInt uid) guild_id
            (VDict (Member.modify_payload nick roles mute deaf channel_id
                      communication_disabled_until))
            reason])%list.
Proof.
  intros Hc Hu Herr.
  rewrite (modify_run _ _ _ _ _ _ _ _ _ _ _ Hc Hu). cbv zeta. rewrite Herr.
  eexists. split; [reflexivity|]. by cbn [self calls].
Qed.

Lemma C5_modify_transport_error_witness :
  let w := World (Sample.member VClient) [] in
  let e := TransportError 403 "Missing Permissions" in
  self w !! "_client" = Some VClient ∧
  Member.user_id Sample.refusing_env (self w) = Ok 42 ∧
  ∃ w',
    Member.modify Sample.refusing_env (VInt 1) (VStr "countess") VMissing VMissing
      VMissing VMissing VMissing VNone w = (Err e, w') ∧
    self w' = self w.
Proof.
  intros w e.
  assert (self w !! "_client" = Some VClient) as Hc by (vm_compute; reflexivity).
  assert (Member.user_id Sample.refusing_env (self w) = Ok 42) as Hu
    by (vm_compute; reflexivity).
  refine (conj Hc (conj Hu _)).
  destruct (C5_modify_transport_error Sample.refusing_env w (VInt 1)
              (VStr "countess") VMissing VMissing VMissing VMissing VMissing VNone
              42 e Hc Hu eq_refl) as (w' & Hrun & Hself & _).
  exists w'. by split.
Defined.

(* ===================================================================== *)
(** ** Enum fields and the component constructors *)
(* ===================================================================== *)

Lemma enumCoerce_unknown cls values n :
  n ∉ values → enumCoerce cls values (VInt n) = Err (UnknownVariant cls (VInt n)).
Proof. intros Hn. unfold enumCoerce. by rewrite bool_decide_eq_false_2. Qed.

Lemma enumCoerce_known cls values n :
  n ∈ values → enumCoerce cls values (VInt n) = Ok (VEnum cls n).
Proof. intros Hn. unfold enumCoerce. by rewrite bool_decide_eq_true_2. Qed.

Lemma Invite_schema_names (E : Env) :
  NoDup (fd_name <$> Invite.schema E) ∧ "_client" ∉ (fd_name <$> Invite.schema E).
Proof. split; by_computation. Qed.

Lemma Invite_schema_plain (E : Env) :
  ("_extras" ∉ (fd_name <$> Invite.schema E)) ∧
  Forall (fun d => fd_add_client d = false) (Invite.schema E).
Proof. split; [by_computation|]. repeat constructor. Qed.

(** Every declared field of an Invite that was built holds the converted
    value of its keyword, or its default. *)
Lemma Invite_new_lookup (E : Env) data c inv d :
  Invite.new E data c = Ok inv →
  d ∈ Invite.schema E →
  ∃ v, field_value d data = Ok v ∧ inv !! fd_name d = Some v.
Proof.
  intros Hnew Hd. unfold Invite.new in Hnew.
  destruct (decide _) as [_|_]; [|discriminate Hnew].
  destruct (fromJSON_client (Invite.schema E) data c) as [inst|e] eqn:Hinst;
    [|discriminate Hnew].
  cbn [mbind result_bind] in Hnew. inversion Hnew; subst inv.
  destruct (Invite_schema_names E) as [Hnd Hc].
  destruct (Invite_schema_plain E) as [Hx Hplain].
  destruct (fromJSON_client_lookup _ _ _ _ d Hnd Hc Hinst Hd) as (v & Hv & Hl).
  rewrite Forall_forall in Hplain. rewrite (Hplain d Hd) in Hl.
  exists v. split; [exact Hv|].
  rewrite lookup_delete_ne; [exact Hl|].
  intros Heq. apply Hx. rewrite Heq. by apply list_elem_of_fmap_2.
Qed.

Lemma target_type_field (E : Env) (d : field_descriptor) :
  d ∈ Invite.schema E →
  fd_wire d = "target_type" →
  fd_converter d = optional (Invite.InviteTargetTypes E).
Proof.
  intros Hd Hw. unfold Invite.schema in Hd.
  repeat (apply elem_of_cons in Hd as [->|Hd]; [by (discriminate Hw || reflexivity)|]).
  by apply elem_of_nil in Hd.
Qed.

(** C6 (as amended).  An enum field whose integer has no variant is
    treated differently by the two classes.  Invite keeps it: a
    [target_type] that is an integer never makes the construction fail,
    the field holds the raw integer, and every field holds the converted
    value of its keyword or its default.  Component does not: it gives
    [type] straight to the enum class, which raises the unknown-variant
    error, and no instance comes out.  When the integer has a variant,
    both hold that variant. *)
Theorem C6_unknown_enum (E : Env)
    (super_init : list string -> gmap string pyval -> result (gmap string pyval))
    (c : pyval) (n : Z) :
  (∀ kwargs s,
     super_init Component.__slots__ kwargs = Ok s →
     s !! "type" = Some (VInt n) →
     n ∉ ComponentType_values E →
     Component.__init__ E super_init kwargs =
       Err (UnknownVariant "ComponentType" (VInt n))) ∧
  (∀ data inv,
     data !! "target_type" = Some (VInt n) →
     n ∉ InviteTargetTypes_values E →
     Invite.new E data c = Ok inv →
     inv !! "target_type" = Some (VInt n) ∧
     ∀ d, d ∈ Invite.schema E →
          ∃ v, field_value d data = Ok v ∧ inv !! fd_name d = Some v) ∧
  (∀ data,
     data !! "target_type" = Some (VInt n) →
     map_Forall (fun k _ => k ∈ fd_wire <$> Invite.schema E) data →
     (∀ d, d ∈ Invite.schema E → fd_wire d ≠ "target_type" →
           ∃ v, field_value d data = Ok v) →
     ∃ inv, Invite.new E data c = Ok inv) ∧
  (∀ kwargs s,
     super_init Component.__slots__ kwargs = Ok s →
     s !! "type" = Some (VInt n) →
     n ∈ ComponentType_values E →
     Component.__init__ E super_init kwargs =
       Ok (<["type" := VEnum "ComponentType" n]> s)) ∧
  (∀ data inv,
     data !! "target_type" = Some (VInt n) →
     n ∈ InviteTargetTypes_values E →
     Invite.new E data c = Ok inv →
     inv !! "target_type" = Some (VEnum "InviteTargetTypes" n)).
Proof.
  assert (∀ data inv v,
            data !! "target_type" = Some (VInt n) →
            Invite.InviteTargetTypes E (VInt n) = Ok v →
            Invite.new E data c = Ok inv →
            inv !! "target_type" = Some v) as Hfield.
  { intros data inv v Ht Hconv Hnew.
    destruct (Invite_new_lookup E data c inv
                (mkfield "target_type" "target_type"
                   (optional (Invite.InviteTargetTypes E)) (Some VNone) false)
                Hnew) as (v' & Hv' & Hl).
    { unfold Invite.schema. in_schema. }
    cbn [fd_name] in Hl. rewrite Hl. f_equal.
    unfold field_value in Hv'. cbn [fd_wire fd_converter] in Hv'.
    rewrite Ht in Hv'. cbn [optional] in Hv'. congruence. }
  split; [|split; [|split; [|split]]].
  - intros kwargs s Hs Ht Hn. unfold Component.__init__. rewrite Hs.
    cbn [mbind result_bind]. unfold getattr. rewrite Ht. cbn [mbind result_bind].
    unfold Component.ComponentType. by rewrite enumCoerce_unknown.
  - intros data inv Ht Hn Hnew. split.
    + apply (Hfield data inv (VInt n) Ht); [|exact Hnew].
      unfold Invite.InviteTargetTypes, enumCoerce_keep.
      by rewrite bool_decide_eq_false_2.
    + intros d Hd. by eapply Invite_new_lookup.
  - intros data Ht Hkeys Hothers. unfold Invite.new.
    rewrite decide_True by exact Hkeys.
    unfold fromJSON_client, fromJSON.
    destruct (build_fields_total (Invite.schema E) data
                {[ "_extras" := VDict (extra_data (Invite.schema E) data) ]})
      as [inst Hinst].
    { intros d Hd. destruct (decide (fd_wire d = "target_type")) as [Hw|Hw].
      - unfold field_value. rewrite Hw, Ht. rewrite (target_type_field E d Hd Hw).
        cbn [optional]. unfold Invite.InviteTargetTypes, enumCoerce_keep.
        destruct (bool_decide _); by eexists.
      - by apply Hothers. }
    rewrite Hinst. cbn [mbind result_bind]. by eexists.
  - intros kwargs s Hs Ht Hn. unfold Component.__init__. rewrite Hs.
    cbn [mbind result_bind]. unfold getattr. rewrite Ht. cbn [mbind result_bind].
    unfold Component.ComponentType. by rewrite enumCoerce_known.
  - intros data inv Ht Hn Hnew.
    apply (Hfield data inv _ Ht); [|exact Hnew].
    unfold Invite.InviteTargetTypes, enumCoerce_keep.
    by rewrite bool_decide_eq_true_2.
Qed.

Lemma C6_unknown_enum_witness :
  let kwargs : gmap string pyval := <["type" := VInt 99]> {[ "label" := VStr "go" ]} in
  let s := Sample.built (DictSerializerMixin_init Component.__slots__ kwargs) in
  let data := <["target_type" := VInt 99]> Sample.invite_json in
  let inv := Sample.built (Invite.new Sample.env data VClient) in
  (99 ∉ ComponentType_values Sample.env) ∧
  (99 ∉ InviteTargetTypes_values Sample.env) ∧
  DictSerializerMixin_init Component.__slots__ kwargs = Ok s ∧
  s !! "type" = Some (VInt 99) ∧
  Component.__init__ Sample.env DictSerializerMixin_init kwargs =
    Err (UnknownVariant "ComponentType" (VInt 99)) ∧
  data !! "target_type" = Some (VInt 99) ∧
  Invite.new Sample.env data VClient = Ok inv ∧
  inv !! "target_type" = Some (VInt 99).
Proof.
  intros kwargs s data inv.
  assert (99 ∉ ComponentType_values Sample.env) as Hn.
  { by_computation. }
  assert (99 ∉ InviteTargetTypes_values Sample.env) as Hn'.
  { by_computation. }
  assert (DictSerializerMixin_init Component.__slots__ kwargs = Ok s) as Hs
    by reflexivity.
  assert (s !! "type" = Some (VInt 99)) as Ht by (vm_compute; reflexivity).
  assert (data !! "target_type" = Some (VInt 99)) as Hd by (vm_compute; reflexivity).
  assert (Invite.new Sample.env data VClient = Ok inv) as Hnew by reflexivity.
  destruct (C6_unknown_enum Sample.env DictSerializerMixin_init VClient 99)
    as (Hcomp & Hinv & _).
  exact (conj Hn (conj Hn' (conj Hs (conj Ht (conj (Hcomp kwargs s Hs Ht Hn)
           (conj Hd (conj Hnew (proj1 (Hinv data inv Hd Hn' Hnew))))))))).
Defined.

(** C6 as stated fails: a Component whose [type] has no variant is not
    built; the constructor raises. *)
Lemma C6_unknown_type_not_built :
  Component.__init__ Sample.env DictSerializerMixin_init
    (<["type" := VInt 99]> {[ "label" := VStr "go" ]}) =
    Err (UnknownVariant "ComponentType" (VInt 99)).
Proof. vm_compute. reflexivity. Qed.

(** C10.  Whatever the keywords, once the base constructor has built the
    instance: SelectMenu has [type] ComponentType.SELECT and 3 under
    "type" in [_json]; Button, given a [style] that is an enum member, has
    [type] ComponentType.BUTTON and 2 under "type" in [_json], and no
    Button is ever returned with another type; ActionRow has [type] 1.  A
    type given by the caller is overwritten. *)
Theorem C10_type_overwritten
    (super_init : list string -> gmap string pyval -> result (gmap string pyval))
    (kwargs : gmap string pyval) :
  (∀ s j,
     super_init SelectMenu.__slots__ kwargs = Ok s →
     s !! "_json" = Some (VDict j) →
     ∃ b j',
       SelectMenu.__init__ super_init kwargs = Ok b ∧
       b !! "type" = Some ComponentType_SELECT ∧
       b !! "_json" = Some (VDict j') ∧ j' !! "type" = Some (VInt 3)) ∧
  (∀ s j cls n,
     super_init Button.__slots__ kwargs = Ok s →
     s !! "_json" = Some (VDict j) →
     s !! "style" = Some (VEnum cls n) →
     ∃ b j',
       Button.__init__ super_init kwargs = Ok b ∧
       b !! "type" = Some ComponentType_BUTTON ∧
       b !! "_json" = Some (VDict j') ∧ j' !! "type" = Some (VInt 2)) ∧
  (∀ b,
     Button.__init__ super_init kwargs = Ok b →
     b !! "type" = Some ComponentType_BUTTON ∧
     ∃ j', b !! "_json" = Some (VDict j') ∧ j' !! "type" = Some (VInt 2)) ∧
  (∀ b,
     SelectMenu.__init__ super_init kwargs = Ok b →
     b !! "type" = Some ComponentType_SELECT ∧
     ∃ j', b !! "_json" = Some (VDict j') ∧ j' !! "type" = Some (VInt 3)) ∧
  (∀ s,
     super_init ActionRow.__slots__ kwargs = Ok s →
     ∃ b, ActionRow.__init__ super_init kwargs = Ok b ∧
          b !! "type" = Some (VInt 1)).
Proof.
  split; [|split; [|split; [|split]]].
  - intros s j Hs Hj. eexists _, _. unfold SelectMenu.__init__. rewrite Hs.
    cbn [mbind result_bind]. unfold getattr, setattr.
    rewrite (lookup_insert_ne s "type" "_json") by done. rewrite Hj.
    cbn [mbind result_bind dict_of]. rewrite lookup_insert_eq.
    cbn [mbind result_bind enum_value ComponentType_SELECT].
    split; [reflexivity|]. split; [|split].
    + rewrite lookup_insert_ne by done. apply lookup_insert_eq.
    + apply lookup_insert_eq.
    + unfold dict_update. apply lookup_union_Some_l. apply lookup_singleton_eq.
  - intros s j cls n Hs Hj Hstyle. eexists _, _. unfold Button.__init__.
    rewrite Hs. cbn [mbind result_bind]. unfold getattr, setattr.
    rewrite (lookup_insert_ne s "type" "_json") by done. rewrite Hj.
    cbn [mbind result_bind dict_of]. rewrite lookup_insert_eq.
    cbn [mbind result_bind enum_value ComponentType_BUTTON].
    rewrite (lookup_insert_ne s "type" "style") by done. rewrite Hstyle.
    cbn [mbind result_bind enum_value].
    split; [reflexivity|]. split; [|split].
    + rewrite lookup_insert_ne by done. apply lookup_insert_eq.
    + apply lookup_insert_eq.
    + unfold dict_update. apply lookup_union_Some_l. apply lookup_insert_eq.
  - intros b. unfold Button.__init__.
    destruct (super_init _ _) as [s|e]; cbn [mbind result_bind]; [|done].
    unfold getattr, setattr.
    rewrite (lookup_insert_ne s "type" "_json") by done.
    destruct (s !! "_json") as [j|]; cbn [mbind result_bind]; [|done].
    destruct (dict_of j) as [d|e]; cbn [mbind result_bind]; [|done].
    rewrite lookup_insert_eq.
    cbn [mbind result_bind enum_value ComponentType_BUTTON].
    rewrite (lookup_insert_ne s "type" "style") by done.
    destruct (s !! "style") as [st|]; cbn [mbind result_bind]; [|done].
    destruct (enum_value st) as [sv|e]; cbn [mbind result_bind]; [|done].
    intros [= <-]. split.
    + rewrite lookup_insert_ne by done. apply lookup_insert_eq.
    + eexists. split; [apply lookup_insert_eq|].
      unfold dict_update. apply lookup_union_Some_l. apply lookup_insert_eq.
  - intros b. unfold SelectMenu.__init__.
    destruct (super_init _ _) as [s|e]; cbn [mbind result_bind]; [|done].
    unfold getattr, setattr.
    rewrite (lookup_insert_ne s "type" "_json") by done.
    destruct (s !! "_json") as [j|]; cbn [mbind result_bind]; [|done].
    destruct (dict_of j) as [d|e]; cbn [mbind result_bind]; [|done].
    rewrite lookup_insert_eq.
    cbn [mbind result_bind enum_value ComponentType_SELECT].
    intros [= <-]. split.
    + rewrite lookup_insert_ne by done. apply lookup_insert_eq.
    + eexists. split; [apply lookup_insert_eq|].
      unfold dict_update. apply lookup_union_Some_l. apply lookup_singleton_eq.
  - intros s Hs. unfold ActionRow.__init__. rewrite Hs. cbn [mbind result_bind].
    eexists. split; [reflexivity|]. apply lookup_insert_eq.
Qed.

Lemma C10_type_overwritten_witness :
  let kwargs : gmap string pyval :=
    <["type" := VInt 7]> (<["style" := VEnum "ButtonStyle" 1]>
                           {[ "label" := VStr "go" ]}) in
  let s := Sample.built (DictSerializerMixin_init Button.__slots__ kwargs) in
  DictSerializerMixin_init Button.__slots__ kwargs = Ok s ∧
  s !! "_json" = Some (VDict kwargs) ∧
  s !! "style" = Some (VEnum "ButtonStyle" 1) ∧
  s !! "type" = Some (VInt 7) ∧
  ∃ b j',
    Button.__init__ DictSerializerMixin_init kwargs = Ok b ∧
    b !! "type" = Some ComponentType_BUTTON ∧
    b !! "_json" = Some (VDict j') ∧ j' !! "type" = Some (VInt 2).
Proof.
  intros kwargs s.
  assert (DictSerializerMixin_init Button.__slots__ kwargs = Ok s) as Hs
    by reflexivity.
  assert (s !! "_json" = Some (VDict kwargs)) as Hj by reflexivity.
  assert (s !! "style" = Some (VEnum "ButtonStyle" 1)) as Hstyle
    by (vm_compute; reflexivity).
  assert (s !! "type" = Some (VInt 7)) as Ht by (vm_compute; reflexivity).
  refine (conj Hs (conj Hj (conj Hstyle (conj Ht _)))).
  exact (proj1 (proj2 (C10_type_overwritten DictSerializerMixin_init kwargs))
           s kwargs "ButtonStyle" 1 Hs Hj Hstyle).
Defined.

(* ===================================================================== *)
(** ** Further properties of the action methods of Member *)
(* ===================================================================== *)

Lemma keeps_self_ret {A} (a : A) : keeps_self (mret a).
Proof. by intros w. Qed.

Lemma keeps_self_lift {A} (r : result A) : keeps_self (lift r).
Proof. by intros w. Qed.

Lemma keeps_self_raise {A} (e : exn) : keeps_self (raise (A := A) e).
Proof. by intros w. Qed.

Lemma keeps_self_get : keeps_self get_self.
Proof. by intros w. Qed.

Lemma keeps_self_await (E : Env) (c : call) : keeps_self (await E c).
Proof. by intros w. Qed.

Lemma keeps_self_bind {A B} (m : M A) (f : A → M B) :
  keeps_self m → (∀ a, keeps_self (f a)) → keeps_self (m ≫= f).
Proof.
  intros Hm Hf w. rewrite bind_run. specialize (Hm w).
  destruct (m w) as [[a|e] w1]; simpl in *; [|done].
  by rewrite Hf.
Qed.

Ltac keeps :=
  repeat first
    [ apply keeps_self_lift | apply keeps_self_raise | apply keeps_self_get
    | apply keeps_self_await | apply keeps_self_ret
    | apply keeps_self_bind; [|intros ?]
    | match goal with
      | |- keeps_self (if ?b then _ else _) => destruct b
      | |- keeps_self (match ?x with _ => _ end) => destruct x
      | |- keeps_self (let (_, _) := ?x in _) => destruct x
      end ].

(** X1.  No action method other than [modify] ever changes the instance it
    is called on, whether it returns or raises: ban, kick, add_role,
    remove_role, send and add_to_thread of Member and delete of Invite
    leave every attribute as it was. *)
Theorem X1_actions_keep_instance (E : Env) :
  (∀ guild_id reason delete_message_days,
     keeps_self (Member.ban E guild_id reason delete_message_days)) ∧
  (∀ guild_id reason, keeps_self (Member.kick E guild_id reason)) ∧
  (∀ role guild_id reason, keeps_self (Member.add_role E role guild_id reason)) ∧
  (∀ role guild_id reason, keeps_self (Member.remove_role E role guild_id reason)) ∧
  (∀ content components tts files embeds allowed_mentions,
     keeps_self (Member.send E content components tts files embeds
                   allowed_mentions)) ∧
  (∀ thread_id, keeps_self (Member.add_to_thread E thread_id)) ∧
  (∀ reason, keeps_self (Invite.delete E reason)).
Proof.
  repeat split; intros;
    unfold Member.ban, Member.kick, Member.add_role, Member.remove_role,
      Member.send, Member.add_to_thread, Invite.delete;
    keeps.
Qed.

(** X2.  With a client and a user, [ban], [kick] and [add_to_thread] make
    exactly one transport call, carrying [int(self.user.id)] and the
    arguments as given.  They return None whatever the transport answers,
    and raise what the transport raises. *)
Theorem X2_single_call_actions (E : Env) (w : world) (uid : Z) :
  self w !! "_client" = Some VClient →
  Member.user_id E (self w) = Ok uid →
  (∀ guild_id reason delete_message_days,
     let c := create_guild_ban guild_id (VInt uid) reason delete_message_days in
     Member.ban E guild_id reason delete_message_days w =
       (match transport E (calls w) c with Ok _ => Ok VNone | Err e => Err e end,
        World (self w) (calls w ++ [c]))) ∧
  (∀ guild_id reason,
     let c := create_guild_kick guild_id (VInt uid) reason in
     Member.kick E guild_id reason w =
       (match transport E (calls w) c with Ok _ => Ok VNone | Err e => Err e end,
        World (self w) (calls w ++ [c]))) ∧
  (∀ thread_id,
     let c := add_member_to_thread (VInt uid) thread_id in
     Member.add_to_thread E thread_id w =
       (match transport E (calls w) c with Ok _ => Ok VNone | Err e => Err e end,
        World (self w) (calls w ++ [c]))).
Proof.
  intros Hc Hu. repeat split; intros;
    unfold Member.ban, Member.kick, Member.add_to_thread;
    mstep; mstep; unfold getattr; rewrite Hc; cbn [truthy negb http_method];
    mstep; mstep; rewrite Hu; mstep;
    by destruct (transport E _ _).
Qed.

Lemma X2_single_call_actions_witness :
  let w := World (Sample.member VClient) [] in
  self w !! "_client" = Some VClient ∧
  Member.user_id Sample.refusing_env (self w) = Ok 42 ∧
  Member.kick Sample.refusing_env (VInt 1) (VStr "spam") w =
    (Err (TransportError 403 "Missing Permissions"),
     World (self w) [create_guild_kick (VInt 1) (VInt 42) (VStr "spam")]).
Proof.
  intros w.
  assert (self w !! "_client" = Some VClient) as Hc by (vm_compute; reflexivity).
  assert (Member.user_id Sample.refusing_env (self w) = Ok 42) as Hu
    by (vm_compute; reflexivity).
  refine (conj Hc (conj Hu _)).
  exact (proj1 (proj2 (X2_single_call_actions Sample.refusing_env w 42 Hc Hu))
           (VInt 1) (VStr "spam")).
Defined.

Ltac run_all :=
  unfold mbind, M_bind, mret, M_ret, get_self, lift, raise, await; cbv beta iota.

(** What [add_role] does, step by step. *)
Lemma add_role_run (E : Env) (role guild_id reason : pyval) (w : world) :
  Member.add_role E role guild_id reason w =
    match getattr (self w) "_client" with
    | Err e => (Err e, w)
    | Ok c =>
        if negb (truthy c) then (Err MissingContext, w)
        else
          match http_method c "add_member_role" with
          | Err e => (Err e, w)
          | Ok _ =>
              match Member.user_id E (self w) with
              | Err e => (Err e, w)
              | Ok uid =>
                  match (if Member.is_Role role
                         then i ← vgetattr role "id"; rid ← py_int E i; Ok (VInt rid)
                         else Ok role) with
                  | Err e => (Err e, w)
                  | Ok role_id =>
                      let c := add_member_role guild_id (VInt uid) role_id reason in
                      (match transport E (calls w) c with
                       | Ok _ => Ok VNone
                       | Err e => Err e
                       end,
                       World (self w) (calls w ++ [c]))
                  end
              end
          end
    end.
Proof.
  unfold Member.add_role. run_all.
  destruct (getattr (self w) "_client") as [c|e]; [|reflexivity].
  destruct (truthy c); cbn [negb]; [|reflexivity].
  destruct (Member.is_Role role);
    (destruct (http_method c _) as [[]|e]; [|reflexivity]);
    (destruct (Member.user_id E (self w)) as [uid|e]; [|reflexivity]).
  - destruct (vgetattr role "id") as [i|e]; [|reflexivity].
    cbn [result_bind]. destruct (py_int E i) as [rid|e]; [|reflexivity].
    cbn [result_bind]. cbv zeta. by destruct (transport E _ _).
  - cbv zeta. by destruct (transport E _ _).
Qed.

(** What [remove_role] does, step by step. *)
Lemma remove_role_run (E : Env) (role guild_id reason : pyval) (w : world) :
  Member.remove_role E role guild_id reason w =
    match getattr (self w) "_client" with
    | Err e => (Err e, w)
    | Ok c =>
        if negb (truthy c) then (Err MissingContext, w)
        else
          match http_method c "remove_member_role" with
          | Err e => (Err e, w)
          | Ok _ =>
              match Member.user_id E (self w) with
              | Err e => (Err e, w)
              | Ok uid =>
                  match (if Member.is_Role role
                         then i ← vgetattr role "id"; rid ← py_int E i; Ok (VInt rid)
                         else Ok role) with
                  | Err e => (Err e, w)
                  | Ok role_id =>
                      let c :=
                        remove_member_role guild_id (VInt uid) role_id reason in
                      (match transport E (calls w) c with
                       | Ok _ => Ok VNone
                       | Err e => Err e
                       end,
                       World (self w) (calls w ++ [c]))
                  end
              end
          end
    end.
Proof.
  unfold Member.remove_role. run_all.
  destruct (getattr (self w) "_client") as [c|e]; [|reflexivity].
  destruct (truthy c); cbn [negb]; [|reflexivity].
  destruct (Member.is_Role role);
    (destruct (http_method c _) as [[]|e]; [|reflexivity]);
    (destruct (Member.user_id E (self w)) as [uid|e]; [|reflexivity]).
  - destruct (vgetattr role "id") as [i|e]; [|reflexivity].
    cbn [result_bind]. destruct (py_int E i) as [rid|e]; [|reflexivity].
    cbn [result_bind]. cbv zeta. by destruct (transport E _ _).
  - cbv zeta. by destruct (transport E _ _).
Qed.

(** X3.  A role given as a Role object and the same role given as its
    integer identifier are the same call: [add_role] and [remove_role]
    behave identically on both, on every outcome. *)
Theorem X3_role_object_or_id (E : Env) (w : world) (attrs : gmap string pyval)
    (i : pyval) (rid : Z) (guild_id reason : pyval) :
  attrs !! "id" = Some i →
  py_int E i = Ok rid →
  Member.add_role E (VObj "Role" attrs) guild_id reason w =
    Member.add_role E (VInt rid) guild_id reason w ∧
  Member.remove_role E (VObj "Role" attrs) guild_id reason w =
    Member.remove_role E (VInt rid) guild_id reason w.
Proof.
  intros Hi Hrid.
  assert ((if Member.is_Role (VObj "Role" attrs)
           then j ← vgetattr (VObj "Role" attrs) "id"; r ← py_int E j; Ok (VInt r)
           else Ok (VObj "Role" attrs)) = Ok (VInt rid)) as Hobj.
  { change (Member.is_Role (VObj "Role" attrs)) with true.
    cbn [vgetattr]. rewrite Hi. cbn [mbind result_bind]. by rewrite Hrid. }
  split; rewrite ?add_role_run, ?remove_role_run; rewrite Hobj;
    change (Member.is_Role (VInt rid)) with false; reflexivity.
Qed.

Lemma X3_role_object_or_id_witness :
  let w := World (Sample.member VClient) [] in
  let attrs : gmap string pyval := {[ "id" := VStr "7" ]} in
  attrs !! "id" = Some (VStr "7") ∧
  py_int Sample.env (VStr "7") = Ok 7 ∧
  Member.add_role Sample.env (VObj "Role" attrs) (VInt 1) VNone w =
    Member.add_role Sample.env (VInt 7) (VInt 1) VNone w.
Proof.
  intros w attrs.
  assert (attrs !! "id" = Some (VStr "7")) as Hi by (vm_compute; reflexivity).
  assert (py_int Sample.env (VStr "7") = Ok 7) as Hr by (vm_compute; reflexivity).
  refine (conj Hi (conj Hr _)).
  exact (proj1 (X3_role_object_or_id Sample.env w attrs (VStr "7") 7 (VInt 1) VNone
                  Hi Hr)).
Defined.

(** X4.  On a member that has a client but no user, [ban], [kick],
    [add_role], [remove_role], [add_to_thread] and [modify] raise the
    attribute error of the null user before any transport call, although
    the properties [id] and [name] of the same member read as null. *)
Theorem X4_no_user_no_call (E : Env) (w : world) :
  self w !! "_client" = Some VClient →
  self w !! "user" = Some VNone →
  let e := no_attribute "NoneType" "id" in
  (∀ guild_id reason delete_message_days,
     Member.ban E guild_id reason delete_message_days w = (Err e, w)) ∧
  (∀ guild_id reason, Member.kick E guild_id reason w = (Err e, w)) ∧
  (∀ role guild_id reason, Member.add_role E role guild_id reason w = (Err e, w)) ∧
  (∀ role guild_id reason,
     Member.remove_role E role guild_id reason w = (Err e, w)) ∧
  (∀ thread_id, Member.add_to_thread E thread_id w = (Err e, w)) ∧
  (∀ guild_id nick roles mute deaf channel_id communication_disabled_until reason,
     Member.modify E guild_id nick roles mute deaf channel_id
       communication_disabled_until reason w = (Err e, w)) ∧
  Member.id (self w) = Ok VNone ∧
  (∀ n, self w !! "nick" = Some n → truthy n = false →
        Member.name (self w) = Ok VNone).
Proof.
  intros Hc Hu e.
  assert (Member.user_id E (self w) = Err e) as Huid.
  { unfold Member.user_id, getattr. by rewrite Hu. }
  repeat split; intros;
    try (unfold Member.ban, Member.kick, Member.add_role, Member.remove_role,
           Member.add_to_thread, Member.modify;
         mstep; mstep; unfold getattr; rewrite Hc; cbn [truthy negb];
         try (destruct (Member.is_Role _));
         cbn [http_method]; mstep; mstep; by rewrite Huid).
  - unfold Member.id, getattr. by rewrite Hu.
  - unfold Member.name, getattr. rewrite H. cbn [mbind result_bind].
    rewrite H0, Hu. reflexivity.
Qed.

Lemma X4_no_user_no_call_witness :
  let w := World Sample2.orphan_member [] in
  self w !! "_client" = Some VClient ∧
  self w !! "user" = Some VNone ∧
  Member.kick Sample.env (VInt 1) VNone w =
    (Err (no_attribute "NoneType" "id"), w).
Proof.
  intros w.
  assert (self w !! "_client" = Some VClient) as Hc by (vm_compute; reflexivity).
  assert (self w !! "user" = Some VNone) as Hu by (vm_compute; reflexivity).
  refine (conj Hc (conj Hu _)).
  exact (proj1 (proj2 (X4_no_user_no_call Sample.env w Hc Hu)) (VInt 1) VNone).
Defined.

(** What [send] does once the client is there. *)
Lemma send_run (E : Env) (content components tts files embeds allowed_mentions : pyval)
    (w : world) :
  self w !! "_client" = Some VClient →
  Member.send E content components tts files embeds allowed_mentions w =
    match Member.send_payload E content components tts files embeds
            allowed_mentions with
    | Err e => (Err e, w)
    | Ok (payload, files') =>
        match Member.user_id E (self w) with
        | Err e => (Err e, w)
        | Ok uid =>
            let dm := create_dm (VInt uid) in
            let w1 := World (self w) (calls w ++ [dm]) in
            match transport E (calls w) dm with
            | Err e => (Err e, w1)
            | Ok res =>
                match kw ← kwargs_of res; Channel E kw with
                | Err e => (Err e, w1)
                | Ok channel =>
                    match i ← vgetattr channel "id"; py_int E i with
                    | Err e => (Err e, w1)
                    | Ok cid =>
                        let msg := create_message (VInt cid) (VDict payload) files' in
                        (res' ← transport E (calls w ++ [dm]) msg;
                         kw ← kwargs_of res';
                         match kw !! "_client" with
                         | Some _ =>
                             Err (TypeError
                               "got multiple values for keyword argument '_client'")
                         | None => Message E kw VClient
                         end,
                         World (self w) ((calls w ++ [dm]) ++ [msg]))
                    end
                end
            end
        end
    end.
Proof.
  intros Hc. unfold Member.send. run_all. unfold getattr. rewrite Hc.
  cbn [truthy negb http_method].
  destruct (Member.send_payload E _ _ _ _ _ _) as [[payload files']|e];
    [|reflexivity].
  destruct (Member.user_id E (self w)) as [uid|e]; [|reflexivity].
  cbv zeta. cbn [self calls].
  destruct (transport E (calls w) _) as [res|e]; [|reflexivity].
  destruct (result_bind _ _ _ (kwargs_of res)) as [channel|e]; [|reflexivity].
  destruct (result_bind _ _ _ (vgetattr channel "id")) as [cid|e]; [|reflexivity].
  cbn [self calls].
  by destruct (transport E (calls w ++ _) _).
Qed.

(** X5.  [send] opens the direct-message channel first.  When that call
    raises, or when no channel can be built from its answer, [send] raises
    the same error and never calls create_message: the trace holds the
    create_dm call alone. *)
Theorem X5_send_stops_after_failed_dm (E : Env)
    (content components tts files embeds allowed_mentions : pyval)
    (w : world) (payload : gmap string pyval) (files' : pyval) (uid : Z) (e : exn) :
  self w !! "_client" = Some VClient →
  Member.send_payload E content components tts files embeds allowed_mentions
    = Ok (payload, files') →
  Member.user_id E (self w) = Ok uid →
  (res ← transport E (calls w) (create_dm (VInt uid));
   kw ← kwargs_of res; Channel E kw) = Err e →
  Member.send E content components tts files embeds allowed_mentions w =
    (Err e, World (self w) (calls w ++ [create_dm (VInt uid)])).
Proof.
  intros Hc Hp Hu Hdm. rewrite send_run by done. rewrite Hp, Hu. cbv zeta.
  destruct (transport E (calls w) _) as [res|e0]; cbn [mbind result_bind] in Hdm.
  - cbn [mbind] in *. by rewrite Hdm.
  - by inversion Hdm.
Qed.

Lemma X5_send_stops_after_failed_dm_witness :
  let w := World (Sample.member VClient) [] in
  let e := TransportError 403 "Missing Permissions" in
  self w !! "_client" = Some VClient ∧
  Member.user_id Sample.refusing_env (self w) = Ok 42 ∧
  Member.send Sample.refusing_env (VStr "hi") VMissing VMissing VMissing VMissing
    VMissing w = (Err e, World (self w) [create_dm (VInt 42)]).
Proof.
  intros w e.
  assert (self w !! "_client" = Some VClient) as Hc by (vm_compute; reflexivity).
  assert (Member.user_id Sample.refusing_env (self w) = Ok 42) as Hu
    by (vm_compute; reflexivity).
  refine (conj Hc (conj Hu _)).
  exact (X5_send_stops_after_failed_dm Sample.refusing_env (VStr "hi") VMissing
           VMissing VMissing VMissing VMissing w _ _ 42 e Hc eq_refl Hu eq_refl).
Defined.

(** X6.  One embed or one file is sent as the list of that one: [send]
    builds the same payload, and hands the same files to the transport,
    for [x] as for [[x]]. *)
Theorem X6_send_one_is_list_of_one (E : Env)
    (content components tts files embeds allowed_mentions : pyval) :
  (∀ cls attrs, embeds = VObj cls attrs →
     Member.send_payload E content components tts files embeds allowed_mentions =
     Member.send_payload E content components tts files (VList [embeds])
       allowed_mentions) ∧
  (∀ cls attrs, files = VObj cls attrs →
     Member.send_payload E content components tts files embeds allowed_mentions =
     Member.send_payload E content components tts (VList [files]) embeds
       allowed_mentions).
Proof.
  split; intros cls attrs ->; unfold Member.send_payload;
    cbn [truthy negb is_missing orb mapM_result enumerate_from].
  - destruct (vgetattr (VObj cls attrs) "_json") as [j|e]; reflexivity.
  - destruct (if negb (truthy embeds) || is_missing embeds then _ else _)
      as [_embeds|e]; [|reflexivity].
    cbn [mbind result_bind].
    destruct (if negb (truthy components) || is_missing components then _ else _)
      as [_components|e]; [|reflexivity].
    cbn [mbind result_bind].
    destruct (_json_payload E (VObj cls attrs) 0) as [j|e]; reflexivity.
Qed.

Lemma X6_send_one_is_list_of_one_witness :
  let embed := VObj "Embed" {[ "_json" := VDict {[ "title" := VStr "t" ]} ]} in
  Member.send_payload Sample.env VMissing VMissing VMissing VMissing embed VMissing =
  Member.send_payload Sample.env VMissing VMissing VMissing VMissing (VList [embed])
    VMissing.
Proof.
  intros embed.
  exact (proj1 (X6_send_one_is_list_of_one Sample.env VMissing VMissing VMissing
                  VMissing embed VMissing) "Embed" _ eq_refl).
Defined.



(** X8.  After a successful [modify] the instance reads like the Member
    that was returned: [name], [avatar] and [id] give the same on both. *)
Theorem X8_modify_then_read (E : Env) (w w' : world)
    (guild_id nick roles mute deaf channel_id communication_disabled_until
       reason : pyval) (member : gmap string pyval) :
  Member.modify E guild_id nick roles mute deaf channel_id
    communication_disabled_until reason w = (Ok member, w') →
  Member.name (self w') = Member.name member ∧
  Member.avatar (self w') = Member.avatar member ∧
  Member.id (self w') = Member.id member.
Proof.
  intros Hrun.
  assert (∀ attr, attr ∈ Member.__slots__ E → self w' !! attr = member !! attr)
    as Hslots.
  { revert Hrun.
    destruct (self w !! "_client") as [c|] eqn:Hc.
    2:{ unfold Member.modify. mstep. mstep. unfold getattr. by rewrite Hc. }
    destruct (truthy c) eqn:Ht.
    2:{ unfold Member.modify. mstep. mstep. unfold getattr. rewrite Hc.
        cbn [negb]. by rewrite Ht. }
    destruct (http_method c "modify_member") as [[]|e0] eqn:Hm.
    2:{ unfold Member.modify. mstep. mstep. unfold getattr. rewrite Hc.
        rewrite Ht. cbn [negb]. mstep. by rewrite Hm. }
    assert (c = VClient) as -> by (destruct c; simpl in Hm; congruence).
    destruct (Member.user_id E (self w)) as [uid|e0] eqn:Hu.
    2:{ unfold Member.modify. mstep. mstep. unfold getattr. rewrite Hc.
        cbn [negb truthy http_method]. mstep. mstep. by rewrite Hu. }
    rewrite (modify_run _ _ _ _ _ _ _ _ _ _ _ Hc Hu). cbv zeta.
    destruct (transport E _ _) as [res|e0]; [|done].
    destruct (kwargs_of res ≫= _) as [m|e0] eqn:Hnew; [|done].
    assert (∃ kw, Member.new E kw VClient = Ok m) as [kw Hkw].
    { destruct res; simpl in Hnew; try done. by eexists. }
    match goal with
    | |- context [Member.copy_slots ?s ?m ?w1] =>
        destruct (copy_slots_ok s m w1 (Member_new_slots E _ _ _ Hkw))
          as (s' & Hcopy & Hs')
    end.
    rewrite Hcopy. intros [= <- <-] attr Hattr. cbn [self].
    rewrite Hs'. by rewrite decide_True. }
  assert (self w' !! "nick" = member !! "nick") as Hnick
    by (apply Hslots; by_computation).
  assert (self w' !! "user" = member !! "user") as Huser
    by (apply Hslots; by_computation).
  assert (self w' !! "_avatar" = member !! "_avatar") as Hav
    by (apply Hslots; by_computation).
  unfold Member.name, Member.avatar, Member.id, getattr.
  by rewrite Hnick, Huser, Hav.
Qed.

Lemma X8_modify_then_read_witness :
  let w := World (Sample.member VClient) [] in
  let member := Sample.renamed_member VClient in
  ∃ w',
    Member.modify Sample.env (VInt 1) (VStr "countess") VMissing VMissing VMissing
      VMissing VMissing VNone w = (Ok member, w') ∧
    Member.name (self w') = Member.name member.
Proof.
  intros w member.
  destruct (Member.modify Sample.env (VInt 1) (VStr "countess") VMissing VMissing
              VMissing VMissing VMissing VNone w) as [r w'] eqn:Hrun.
  assert (r = Ok member) as ->.
  { replace r with (r, w').1 by reflexivity. rewrite <- Hrun. reflexivity. }
  exists w'. split; [reflexivity|].
  exact (proj1 (X8_modify_then_read Sample.env w w' (VInt 1) (VStr "countess")
                  VMissing VMissing VMissing VMissing VMissing VNone member Hrun)).
Defined.

(* ===================================================================== *)
(** ** Text forms of a member *)
(* ===================================================================== *)

Lemma string_app_assoc (s1 s2 s3 : string) :
  ((s1 ++ s2) ++ s3 = s1 ++ (s2 ++ s3))%string.
Proof.
  induction s1 as [|a s1 IH]; [reflexivity|].
  change (String a ((s1 ++ s2) ++ s3) = String a (s1 ++ (s2 ++ s3)))%string.
  by rewrite IH.
Qed.

(** X9.  [mention] writes the user identifier as <@!id> when the member
    has a non-empty nick and as <@id> otherwise.  On a member with no
    user, [mention] raises the attribute error of the null user and
    [repr] raises TypeError when there is no nick either, where [name]
    itself reads as null. *)
Theorem X9_mention_and_repr (str_of_object : pyval -> string)
    (self : gmap string pyval) (n : pyval) :
  self !! "nick" = Some n →
  (∀ cls attrs i,
     self !! "user" = Some (VObj cls attrs) → attrs !! "id" = Some (VInt i) →
     MemberText.mention str_of_object self =
       Ok (VStr ((if truthy n then "<@!" else "<@") ++ str_of_int i ++ ">"))) ∧
  (self !! "user" = Some VNone →
     MemberText.mention str_of_object self = Err (no_attribute "NoneType" "id")) ∧
  (self !! "user" = Some VNone → truthy n = false →
     Member.name self = Ok VNone ∧
     MemberText.__repr__ self = Err (TypeError "__repr__ returned non-string")) ∧
  (∀ s, n = VStr s → s ≠ "" → MemberText.__repr__ self = Ok (VStr s)).
Proof.
  intros Hn. split; [|split; [|split]].
  - intros cls attrs i Hu Hi. unfold MemberText.mention, getattr.
    rewrite Hn. cbn [mbind result_bind].
    destruct (truthy n); rewrite Hu; cbn [mbind result_bind vgetattr];
      rewrite Hi; reflexivity.
  - intros Hu. unfold MemberText.mention, getattr.
    rewrite Hn. cbn [mbind result_bind].
    destruct (truthy n); rewrite Hu; reflexivity.
  - intros Hu Ht.
    assert (Member.name self = Ok VNone) as Hname.
    { unfold Member.name, getattr. rewrite Hn. cbn [mbind result_bind].
      rewrite Ht, Hu. reflexivity. }
    split; [exact Hname|]. unfold MemberText.__repr__. by rewrite Hname.
  - intros s -> Hs. unfold MemberText.__repr__, Member.name, getattr.
    rewrite Hn. cbn [mbind result_bind].
    apply truthy_str in Hs. by rewrite Hs.
Qed.

Lemma X9_mention_and_repr_witness :
  let m := Sample2.orphan_member in
  m !! "nick" = Some VNone ∧ m !! "user" = Some VNone ∧
  MemberText.mention Sample2.str_of_object m = Err (no_attribute "NoneType" "id").
Proof.
  intros m.
  assert (m !! "nick" = Some VNone) as Hn by (vm_compute; reflexivity).
  assert (m !! "user" = Some VNone) as Hu by (vm_compute; reflexivity).
  refine (conj Hn (conj Hu _)).
  exact (proj1 (proj2 (X9_mention_and_repr Sample2.str_of_object m VNone Hn)) Hu).
Defined.

(** X10.  [get_member_avatar_url] is null when the member has no avatar
    (its own or its user's), without looking at the user identifier.
    Otherwise it is the guild avatar address of the user, ending in .gif
    when the avatar hash starts with a_ and in .png when it does not; it
    raises when the user identifier cannot be read. *)
Theorem X10_avatar_url (E : Env) (str_of_object : pyval -> string)
    (guild_id : pyval) (self : gmap string pyval) :
  (∀ a, Member.avatar self = Ok a → truthy a = false →
        MemberText.get_member_avatar_url E str_of_object guild_id self = Ok VNone) ∧
  (∀ h uid,
     Member.avatar self = Ok (VStr h) → h ≠ "" →
     Member.user_id E self = Ok uid →
     MemberText.get_member_avatar_url E str_of_object guild_id self =
       Ok (VStr ("https://cdn.discordapp.com/guilds/"
                   ++ format_value str_of_object guild_id
                   ++ "/users/" ++ str_of_int uid ++ "/avatars/" ++ h
                   ++ (if String.prefix "a_" h then ".gif" else ".png")))) ∧
  (∀ h e,
     Member.avatar self = Ok (VStr h) → h ≠ "" →
     Member.user_id E self = Err e →
     MemberText.get_member_avatar_url E str_of_object guild_id self = Err e).
Proof.
  split; [|split].
  - intros a Ha Ht. unfold MemberText.get_member_avatar_url.
    rewrite Ha. cbn [mbind result_bind]. by rewrite Ht.
  - intros h uid Ha Hh Hu. unfold MemberText.get_member_avatar_url.
    rewrite Ha. cbn [mbind result_bind].
    apply truthy_str in Hh. rewrite Hh. cbn [negb]. rewrite Hu.
    cbn [mbind result_bind MemberText.startswith format_value].
    by rewrite !string_app_assoc.
  - intros h e Ha Hh Hu. unfold MemberText.get_member_avatar_url.
    rewrite Ha. cbn [mbind result_bind].
    apply truthy_str in Hh. rewrite Hh. cbn [negb]. by rewrite Hu.
Qed.

Lemma X10_avatar_url_witness :
  let m := <["_avatar" := VStr "a_9f"]> (Sample.member VClient) in
  Member.avatar m = Ok (VStr "a_9f") ∧ "a_9f" ≠ "" ∧
  Member.user_id Sample.env m = Ok 42 ∧
  MemberText.get_member_avatar_url Sample.env Sample2.str_of_object (VInt 5) m =
    Ok (VStr "https://cdn.discordapp.com/guilds/5/users/42/avatars/a_9f.gif").
Proof.
  intros m.
  assert (Member.avatar m = Ok (VStr "a_9f")) as Ha by (vm_compute; reflexivity).
  assert ("a_9f" ≠ "") as Hh by discriminate.
  assert (Member.user_id Sample.env m = Ok 42) as Hu by (vm_compute; reflexivity).
  refine (conj Ha (conj Hh (conj Hu _))).
  exact (proj1 (proj2 (X10_avatar_url Sample.env Sample2.str_of_object (VInt 5) m))
           "a_9f" 42 Ha Hh Hu).
Defined.

(* ===================================================================== *)
(** ** Further properties of Invite *)
(* ===================================================================== *)

(** X11.  The link of an Invite that was built is the address of its
    code, followed by the event when [scheduled_event] is set: an
    identifier given as text appears in the link as the normalised
    integer, and a zero identifier, being false, is left out.  [str] of
    the invite is the link. *)
Theorem X11_invite_link (E : Env) (str_of_object : pyval -> string)
    (data inv : gmap string pyval) (c : pyval) (code : string) :
  Invite.new E data c = Ok inv →
  data !! "code" = Some (VStr code) →
  (data !! "scheduled_event" = None →
     InviteData.link str_of_object inv =
       Ok (VStr ("https://discord.gg/" ++ code))) ∧
  (∀ s n, data !! "scheduled_event" = Some (VStr s) → int_of_str E s = Some n →
     InviteData.link str_of_object inv =
       Ok (VStr (if n =? 0 then "https://discord.gg/" ++ code
                 else "https://discord.gg/" ++ code ++ "?event=" ++ str_of_int n))) ∧
  InviteData.__str__ str_of_object inv = InviteData.link str_of_object inv.
Proof.
  intros Hnew Hcode.
  destruct (Invite_new_lookup E data c inv
              (mkfield "code" "code" identity_converter None false) Hnew)
    as (vc & Hvc & Hlc).
  { unfold Invite.schema. in_schema. }
  destruct (Invite_new_lookup E data c inv
              (mkfield "scheduled_event" "scheduled_event" (optional (snowflake E))
                 (Some VNone) false) Hnew)
    as (ve & Hve & Hle).
  { unfold Invite.schema. in_schema. }
  cbn [fd_name] in Hlc, Hle. unfold field_value in Hvc, Hve.
  cbn [fd_wire fd_converter fd_default] in Hvc, Hve.
  rewrite Hcode in Hvc. inversion Hvc; subst vc.
  split; [|split; [|reflexivity]].
  - intros He. rewrite He in Hve. inversion Hve; subst ve.
    unfold InviteData.link, getattr. rewrite Hle, Hlc. reflexivity.
  - intros s n He Hn. rewrite He in Hve. cbn [optional snowflake] in Hve.
    rewrite Hn in Hve. inversion Hve; subst ve.
    unfold InviteData.link, getattr. rewrite Hle. cbn [mbind result_bind].
    unfold Invite.truthy_c. cbn [is_missing truthy negb andb].
    destruct (n =? 0); cbn [negb]; rewrite Hlc; reflexivity.
Qed.

Lemma X11_invite_link_witness :
  let data := <["scheduled_event" := VStr "0031"]> Sample.invite_json in
  let inv := Sample.built (Invite.new Sample.env data VClient) in
  Invite.new Sample.env data VClient = Ok inv ∧
  data !! "code" = Some (VStr "hK7x") ∧
  data !! "scheduled_event" = Some (VStr "0031") ∧
  int_of_str Sample.env "0031" = Some 31 ∧
  InviteData.link Sample2.str_of_object inv =
    Ok (VStr "https://discord.gg/hK7x?event=31").
Proof.
  intros data inv.
  assert (Invite.new Sample.env data VClient = Ok inv) as Hnew by reflexivity.
  assert (data !! "code" = Some (VStr "hK7x")) as Hcode by (vm_compute; reflexivity).
  assert (data !! "scheduled_event" = Some (VStr "0031")) as He
    by (vm_compute; reflexivity).
  assert (int_of_str Sample.env "0031" = Some 31) as Hn by (vm_compute; reflexivity).
  exact (conj Hnew (conj Hcode (conj He (conj Hn
           (proj1 (proj2 (X11_invite_link Sample.env Sample2.str_of_object data inv
                            VClient "hK7x" Hnew Hcode)) "0031" 31 He Hn))))).
Defined.

(** X12.  Without a client the relations of an Invite are not safe to
    read: [channel] raises the attribute error of the null reference, and
    so do [inviter] and [target_user] when their identifier is set; with a
    null (or otherwise false) identifier they are null, the client is not
    looked at. *)
Theorem X12_relations_without_client (cache : Cache) (self : gmap string pyval)
    (cid iid tid : pyval) :
  self !! "_client" = Some VNone →
  self !! "_channel_id" = Some cid →
  self !! "_inviter_id" = Some iid →
  self !! "_target_user_id" = Some tid →
  Invite.channel cache self = Err (no_attribute "NoneType" "cache") ∧
  Invite.inviter cache self =
    (if Invite.truthy_c iid then Err (no_attribute "NoneType" "cache")
     else Ok VNone) ∧
  Invite.target_user cache self =
    (if Invite.truthy_c tid then Err (no_attribute "NoneType" "cache")
     else Ok VNone).
Proof.
  intros Hc Hcid Hiid Htid.
  unfold Invite.channel, Invite.inviter, Invite.target_user, getattr.
  rewrite Hc, Hiid, Htid. cbn [mbind result_bind].
  split; [reflexivity|].
  split; [by destruct (Invite.truthy_c iid) | by destruct (Invite.truthy_c tid)].
Qed.

Lemma X12_relations_without_client_witness :
  let inv := Sample.invite VNone in
  inv !! "_client" = Some VNone ∧
  inv !! "_channel_id" = Some (VInt 11) ∧
  inv !! "_inviter_id" = Some (VInt 42) ∧
  inv !! "_target_user_id" = Some VNone ∧
  Invite.channel Sample.cache inv = Err (no_attribute "NoneType" "cache") ∧
  Invite.inviter Sample.cache inv = Err (no_attribute "NoneType" "cache") ∧
  Invite.target_user Sample.cache inv = Ok VNone.
Proof.
  intros inv.
  assert (inv !! "_client" = Some VNone) as Hc by (vm_compute; reflexivity).
  assert (inv !! "_channel_id" = Some (VInt 11)) as Hcid by (vm_compute; reflexivity).
  assert (inv !! "_inviter_id" = Some (VInt 42)) as Hiid by (vm_compute; reflexivity).
  assert (inv !! "_target_user_id" = Some VNone) as Htid by (vm_compute; reflexivity).
  exact (conj Hc (conj Hcid (conj Hiid (conj Htid
           (X12_relations_without_client Sample.cache inv (VInt 11) (VInt 42) VNone
              Hc Hcid Hiid Htid))))).
Defined.

(** X13.  With a client, [delete] makes exactly one transport call,
    delete_invite with the code of the invite and the reason as given (the
    unset marker included).  It returns None whatever the transport
    answers, and raises what the transport raises. *)
Theorem X13_delete_invite (E : Env) (w : world) (code reason : pyval) :
  self w !! "_client" = Some VClient →
  self w !! "code" = Some code →
  Invite.delete E reason w =
    (match transport E (calls w) (delete_invite code reason) with
     | Ok _ => Ok VNone
     | Err e => Err e
     end,
     World (self w) (calls w ++ [delete_invite code reason])).
Proof.
  intros Hc Hcode. unfold Invite.delete.
  unfold mbind, M_bind, get_self, lift, await, getattr.
  rewrite Hc, Hcode. cbn [http_method].
  by destruct (transport E (calls w) (delete_invite code reason)).
Qed.

Lemma X13_delete_invite_witness :
  let w := World (Sample.invite VClient) [] in
  self w !! "_client" = Some VClient ∧
  self w !! "code" = Some (VStr "hK7x") ∧
  Invite.delete Sample.refusing_env VMissing w =
    (Err (TransportError 403 "Missing Permissions"),
     World (self w) [delete_invite (VStr "hK7x") VMissing]).
Proof.
  intros w.
  assert (self w !! "_client" = Some VClient) as Hc by (vm_compute; reflexivity).
  assert (self w !! "code" = Some (VStr "hK7x")) as Hcode by (vm_compute; reflexivity).
  exact (conj Hc (conj Hcode
           (X13_delete_invite Sample.refusing_env w (VStr "hK7x") VMissing Hc Hcode))).
Defined.

Lemma outcome_bind_inv {A B} (m : outcome A) (f : A -> outcome B) (b : B) :
  m ≫= f = Done b → ∃ a, m = Done a ∧ f a = Done b.
Proof. destruct m as [a|r]; [by exists a | discriminate]. Qed.

(** The statements of [_process_dict], one after the other, on a run that
    returns. *)
Lemma process_dict_inv
    (StageInstance_from_dict Application_from_dict :
       gmap string pyval -> pyval -> result pyval)
    (GuildPreview_from_dict : pyval -> pyval -> result pyval)
    (place_user_data : Cache -> pyval -> result (pyval * Cache))
    (data data' : gmap string pyval) (client : pyval) (cache cache' : Cache) :
  InviteData._process_dict StageInstance_from_dict Application_from_dict
    GuildPreview_from_dict place_user_data data client cache = Done (data', cache') →
  ∃ d1 d2 d3 d4 d5,
    match data !! "stage_instance" with
    | Some _ => ∃ v, StageInstance_from_dict data client = Ok v ∧
                     d1 = <["stage_instance" := v]> data
    | None => d1 = data
    end ∧
    match d1 !! "target_application" with
    | Some _ => ∃ v, Application_from_dict d1 client = Ok v ∧
                     d2 = <["target_application" := v]> d1
    | None => d2 = d1
    end ∧
    d3 = match d2 !! "target_event_id" with
         | Some e => <["scheduled_event" := e]> d2
         | None => d2
         end ∧
    (if Invite.truthy_c (default VNone (d3 !! "channel")) then
       ∃ i, subscript (default VNone (d3 !! "channel")) "id" = Done i ∧
            d4 = <["channel_id" := i]> (delete "channel" d3)
     else d4 = delete "channel" d3) ∧
    (if Invite.truthy_c (default VNone (d4 !! "guild")) then
       ∃ v, GuildPreview_from_dict (default VNone (d4 !! "guild")) client = Ok v ∧
            d5 = <["guild_preview" := v]> (delete "guild" d4)
     else d5 = delete "guild" d4) ∧
    (if Invite.truthy_c (default VNone (d5 !! "inviter")) then
       ∃ user i, client = VClient ∧
         place_user_data cache (default VNone (d5 !! "inviter")) = Ok (user, cache') ∧
         vgetattr user "id" = Ok i ∧
         data' = <["inviter_id" := i]> (delete "inviter" d5)
     else data' = delete "inviter" d5 ∧ cache' = cache).
Proof.
  intros H. unfold InviteData._process_dict in H.
  apply outcome_bind_inv in H as (d1 & H1 & H).
  apply outcome_bind_inv in H as (d2 & H2 & H).
  cbv zeta in H.
  set (d3 := match d2 !! "target_event_id" with
             | Some e => <["scheduled_event" := e]> d2
             | None => d2
             end) in H.
  apply outcome_bind_inv in H as (d4 & H4 & H).
  apply outcome_bind_inv in H as (d5 & H5 & H).
  exists d1, d2, d3, d4, d5.
  split; [|split; [|split; [reflexivity|split; [|split]]]].
  - destruct (data !! "stage_instance"); [|by inversion H1].
    destruct (StageInstance_from_dict data client) as [v|e]; [|discriminate H1].
    exists v. by inversion H1.
  - destruct (d1 !! "target_application"); [|by inversion H2].
    destruct (Application_from_dict d1 client) as [v|e]; [|discriminate H2].
    exists v. by inversion H2.
  - destruct (Invite.truthy_c (default VNone (d3 !! "channel"))); [|by inversion H4].
    destruct (subscript (default VNone (d3 !! "channel")) "id") as [i|r];
      [|discriminate H4].
    exists i. by inversion H4.
  - destruct (Invite.truthy_c (default VNone (d4 !! "guild"))); [|by inversion H5].
    destruct (GuildPreview_from_dict (default VNone (d4 !! "guild")) client)
      as [v|e]; [|discriminate H5].
    exists v. by inversion H5.
  - destruct (Invite.truthy_c (default VNone (d5 !! "inviter"))); [|by inversion H].
    destruct client; try discriminate H. cbn [http_method of_result mbind outcome_bind] in H.
    destruct (place_user_data cache (default VNone (d5 !! "inviter")))
      as [[user c']|e]; [|discriminate H].
    cbn [of_result mbind outcome_bind] in H.
    destruct (vgetattr user "id") as [i|e] eqn:Hid; [|discriminate H].
    cbn [of_result mbind outcome_bind] in H. inversion H; subst data' c'.
    by exists user, i.
Qed.

Ltac split_notin H :=
  repeat (let Hne := fresh "Hne" in apply not_elem_of_cons in H as [Hne H]).

(** X14.  What [_process_dict] does to the keys of the data it is given:
    "channel", "guild" and "inviter" are never in the result; "channel_id"
    is the "id" of a non-empty "channel" and what it was otherwise;
    "scheduled_event" is the "target_event_id" when there is one (which
    itself stays); every key that the method does not name is as it
    was. *)
Theorem X14_process_dict_keys
    (StageInstance_from_dict Application_from_dict :
       gmap string pyval -> pyval -> result pyval)
    (GuildPreview_from_dict : pyval -> pyval -> result pyval)
    (place_user_data : Cache -> pyval -> result (pyval * Cache))
    (data data' : gmap string pyval) (client : pyval) (cache cache' : Cache) :
  InviteData._process_dict StageInstance_from_dict Application_from_dict
    GuildPreview_from_dict place_user_data data client cache = Done (data', cache') →
  data' !! "channel" = None ∧ data' !! "guild" = None ∧ data' !! "inviter" = None ∧
  (∀ k, k ∉ ["stage_instance"; "target_application"; "scheduled_event"; "channel";
             "channel_id"; "guild"; "guild_preview"; "inviter"; "inviter_id"] →
        data' !! k = data !! k) ∧
  (∀ e, data !! "target_event_id" = Some e →
        data' !! "scheduled_event" = Some e ∧ data' !! "target_event_id" = Some e) ∧
  (data !! "target_event_id" = None →
     data' !! "scheduled_event" = data !! "scheduled_event") ∧
  (∀ ch, data !! "channel" = Some ch → Invite.truthy_c ch = true →
         ∃ i, subscript ch "id" = Done i ∧ data' !! "channel_id" = Some i) ∧
  ((∀ ch, data !! "channel" = Some ch → Invite.truthy_c ch = false) →
     data' !! "channel_id" = data !! "channel_id").
Proof.
  intros H.
  destruct (process_dict_inv _ _ _ _ _ _ _ _ _ H)
    as (d1 & d2 & d3 & d4 & d5 & H1 & H2 & H3 & H4 & H5 & H6).
  clear H.
  assert (∀ k, k ≠ "stage_instance" → d1 !! k = data !! k) as L1.
  { intros k Hk. destruct (data !! "stage_instance").
    - destruct H1 as (v & _ & ->). by rewrite lookup_insert_ne.
    - by subst d1. }
  assert (∀ k, k ≠ "target_application" → d2 !! k = d1 !! k) as L2.
  { intros k Hk. destruct (d1 !! "target_application").
    - destruct H2 as (v & _ & ->). by rewrite lookup_insert_ne.
    - by subst d2. }
  assert (∀ k, k ≠ "scheduled_event" → d3 !! k = d2 !! k) as L3.
  { intros k Hk. subst d3. destruct (d2 !! "target_event_id"); [|done].
    by rewrite lookup_insert_ne. }
  assert (d3 !! "scheduled_event" =
            match d2 !! "target_event_id" with
            | Some e => Some e
            | None => d2 !! "scheduled_event"
            end) as L3e.
  { subst d3. destruct (d2 !! "target_event_id"); [|done].
    by rewrite lookup_insert_eq. }
  assert (d4 !! "channel" = None ∧
          ∀ k, k ≠ "channel" → k ≠ "channel_id" → d4 !! k = d3 !! k) as [L4c L4].
  { destruct (Invite.truthy_c (default VNone (d3 !! "channel"))).
    - destruct H4 as (i & _ & ->). split.
      + rewrite lookup_insert_ne by done. apply lookup_delete_eq.
      + intros k Hk Hk'. rewrite lookup_insert_ne by done.
        by rewrite lookup_delete_ne.
    - subst d4. split; [apply lookup_delete_eq|].
      intros k Hk _. by rewrite lookup_delete_ne. }
  assert (d5 !! "guild" = None ∧
          ∀ k, k ≠ "guild" → k ≠ "guild_preview" → d5 !! k = d4 !! k) as [L5g L5].
  { destruct (Invite.truthy_c (default VNone (d4 !! "guild"))).
    - destruct H5 as (v & _ & ->). split.
      + rewrite lookup_insert_ne by done. apply lookup_delete_eq.
      + intros k Hk Hk'. rewrite lookup_insert_ne by done.
        by rewrite lookup_delete_ne.
    - subst d5. split; [apply lookup_delete_eq|].
      intros k Hk _. by rewrite lookup_delete_ne. }
  assert (data' !! "inviter" = None ∧
          ∀ k, k ≠ "inviter" → k ≠ "inviter_id" → data' !! k = d5 !! k) as [L6i L6].
  { destruct (Invite.truthy_c (default VNone (d5 !! "inviter"))).
    - destruct H6 as (user & i & _ & _ & _ & ->). split.
      + rewrite lookup_insert_ne by done. apply lookup_delete_eq.
      + intros k Hk Hk'. rewrite lookup_insert_ne by done.
        by rewrite lookup_delete_ne.
    - destruct H6 as [-> _]. split; [apply lookup_delete_eq|].
      intros k Hk _. by rewrite lookup_delete_ne. }
  assert (d3 !! "channel" = data !! "channel") as Hch.
  { by rewrite L3, L2, L1. }
  assert (d3 !! "channel_id" = data !! "channel_id") as Hcid.
  { by rewrite L3, L2, L1. }
  assert (d2 !! "target_event_id" = data !! "target_event_id") as Hev.
  { by rewrite L2, L1. }
  split; [by rewrite L6, L5|].
  split; [by rewrite L6|].
  split; [exact L6i|].
  split; [|split; [|split; [|split]]].
  - intros k Hk. split_notin Hk.
    by rewrite L6, L5, L4, L3, L2, L1.
  - intros e He. split.
    + rewrite L6, L5, L4 by done. rewrite L3e, Hev. by rewrite He.
    + rewrite L6, L5, L4, L3 by done. by rewrite Hev.
  - intros He. rewrite L6, L5, L4 by done. rewrite L3e, Hev, He.
    by rewrite L2, L1.
  - intros ch Hc Ht. rewrite Hch, Hc in H4.
    change (default VNone (Some ch)) with ch in H4. rewrite Ht in H4.
    destruct H4 as (i & Hi & ->). exists i. split; [exact Hi|].
    rewrite L6, L5 by done. apply lookup_insert_eq.
  - intros Hf. rewrite Hch in H4.
    assert (Invite.truthy_c (default VNone (data !! "channel")) = false) as Ht.
    { destruct (data !! "channel") as [ch|] eqn:Hc; [by apply Hf | reflexivity]. }
    rewrite Ht in H4. subst d4.
    rewrite L6, L5 by done. rewrite lookup_delete_ne by done. exact Hcid.
Qed.

Lemma X14_process_dict_keys_witness :
  let p := Sample2.processed
             (Sample2._process_dict Sample2.raw_invite VClient Sample.cache) in
  Sample2._process_dict Sample2.raw_invite VClient Sample.cache = Done (p.1, p.2) ∧
  p.1 !! "channel" = None ∧
  p.1 !! "channel_id" = Some (VStr "11") ∧
  p.1 !! "scheduled_event" = Some (VStr "0031") ∧
  p.1 !! "uses" = Some (VInt 3).
Proof.
  intros p.
  assert (Sample2._process_dict Sample2.raw_invite VClient Sample.cache
            = Done (p.1, p.2)) as Hp by reflexivity.
  destruct (X14_process_dict_keys Sample2.StageInstance_from_dict
              Sample2.Application_from_dict Sample2.GuildPreview_from_dict
              Sample2.place_user_data Sample2.raw_invite p.1 VClient Sample.cache
              p.2 Hp)
    as (Hc & _ & _ & Hother & Hev & _ & Hch & _).
  refine (conj Hp (conj Hc _)).
  split; [|split].
  - destruct (Hch (VDict (<["id" := VStr "11"]> {[ "name" := VStr "general" ]})))
      as (i & Hi & Hl); [reflexivity|reflexivity|].
    rewrite Hl. f_equal. vm_compute in Hi. congruence.
  - exact (proj1 (Hev (VStr "0031") eq_refl)).
  - rewrite (Hother "uses"); [reflexivity|].
    intros Hin. by repeat (apply elem_of_cons in Hin as [Hin|Hin]; [discriminate Hin|]);
      apply elem_of_nil in Hin.
Defined.

(** X15.  What [_process_dict] hands to the classes it calls.
    [StageInstance.from_dict] and [Application.from_dict] receive the
    whole data of the invite, not the value under the key they replace
    (the application sees the stage instance already replaced);
    [GuildPreview.from_dict] receives the nested "guild", and the cache
    the nested "inviter", whose identifier becomes "inviter_id".  The
    cache is touched only for an inviter that is not empty. *)
Theorem X15_process_dict_nested
    (StageInstance_from_dict Application_from_dict :
       gmap string pyval -> pyval -> result pyval)
    (GuildPreview_from_dict : pyval -> pyval -> result pyval)
    (place_user_data : Cache -> pyval -> result (pyval * Cache))
    (data data' : gmap string pyval) (client : pyval) (cache cache' : Cache) :
  InviteData._process_dict StageInstance_from_dict Application_from_dict
    GuildPreview_from_dict place_user_data data client cache = Done (data', cache') →
  (∀ x, data !! "stage_instance" = Some x →
     ∃ v, StageInstance_from_dict data client = Ok v ∧
          data' !! "stage_instance" = Some v ∧
          ∀ y, data !! "target_application" = Some y →
               ∃ a, Application_from_dict (<["stage_instance" := v]> data) client
                      = Ok a ∧
                    data' !! "target_application" = Some a) ∧
  (∀ y, data !! "stage_instance" = None → data !! "target_application" = Some y →
     ∃ a, Application_from_dict data client = Ok a ∧
          data' !! "target_application" = Some a) ∧
  (∀ g, data !! "guild" = Some g → Invite.truthy_c g = true →
     ∃ v, GuildPreview_from_dict g client = Ok v ∧
          data' !! "guild_preview" = Some v) ∧
  (∀ u, data !! "inviter" = Some u → Invite.truthy_c u = true →
     client = VClient ∧
     ∃ user i, place_user_data cache u = Ok (user, cache') ∧
               vgetattr user "id" = Ok i ∧
               data' !! "inviter_id" = Some i) ∧
  ((∀ u, data !! "inviter" = Some u → Invite.truthy_c u = false) →
     cache' = cache ∧ data' !! "inviter_id" = data !! "inviter_id").
Proof.
  intros H.
  destruct (process_dict_inv _ _ _ _ _ _ _ _ _ H)
    as (d1 & d2 & d3 & d4 & d5 & H1 & H2 & H3 & H4 & H5 & H6).
  clear H.
  assert (∀ k, k ≠ "stage_instance" → d1 !! k = data !! k) as L1.
  { intros k Hk. destruct (data !! "stage_instance").
    - destruct H1 as (v & _ & ->). by rewrite lookup_insert_ne.
    - by subst d1. }
  assert (∀ k, k ≠ "target_application" → d2 !! k = d1 !! k) as L2.
  { intros k Hk. destruct (d1 !! "target_application").
    - destruct H2 as (v & _ & ->). by rewrite lookup_insert_ne.
    - by subst d2. }
  assert (∀ k, k ≠ "scheduled_event" → d3 !! k = d2 !! k) as L3.
  { intros k Hk. subst d3. destruct (d2 !! "target_event_id"); [|done].
    by rewrite lookup_insert_ne. }
  assert (∀ k, k ≠ "channel" → k ≠ "channel_id" → d4 !! k = d3 !! k) as L4.
  { intros k Hk Hk'. destruct (Invite.truthy_c (default VNone (d3 !! "channel"))).
    - destruct H4 as (i & _ & ->). rewrite lookup_insert_ne by done.
      by rewrite lookup_delete_ne.
    - subst d4. by rewrite lookup_delete_ne. }
  assert (∀ k, k ≠ "guild" → k ≠ "guild_preview" → d5 !! k = d4 !! k) as L5.
  { intros k Hk Hk'. destruct (Invite.truthy_c (default VNone (d4 !! "guild"))).
    - destruct H5 as (v & _ & ->). rewrite lookup_insert_ne by done.
      by rewrite lookup_delete_ne.
    - subst d5. by rewrite lookup_delete_ne. }
  assert (∀ k, k ≠ "inviter" → k ≠ "inviter_id" → data' !! k = d5 !! k) as L6.
  { intros k Hk Hk'. destruct (Invite.truthy_c (default VNone (d5 !! "inviter"))).
    - destruct H6 as (user & i & _ & _ & _ & ->). rewrite lookup_insert_ne by done.
      by rewrite lookup_delete_ne.
    - destruct H6 as [-> _]. by rewrite lookup_delete_ne. }
  assert (d4 !! "guild" = data !! "guild") as Hg.
  { by rewrite L4, L3, L2, L1. }
  assert (d5 !! "inviter" = data !! "inviter") as Hu.
  { by rewrite L5, L4, L3, L2, L1. }
  assert (d5 !! "inviter_id" = data !! "inviter_id") as Huid.
  { by rewrite L5, L4, L3, L2, L1. }
  split; [|split; [|split; [|split]]].
  - intros x Hx. rewrite Hx in H1. destruct H1 as (v & Hv & ->).
    exists v. split; [exact Hv|]. split.
    + rewrite L6, L5, L4, L3, L2 by done. apply lookup_insert_eq.
    + intros y Hy. rewrite lookup_insert_ne in H2 by done. rewrite Hy in H2.
      destruct H2 as (a & Ha & ->). exists a. split; [exact Ha|].
      rewrite L6, L5, L4, L3 by done. apply lookup_insert_eq.
  - intros y Hx Hy. rewrite Hx in H1. subst d1. rewrite Hy in H2.
    destruct H2 as (a & Ha & ->). exists a. split; [exact Ha|].
    rewrite L6, L5, L4, L3 by done. apply lookup_insert_eq.
  - intros g Hgd Ht. rewrite Hg, Hgd in H5.
    change (default VNone (Some g)) with g in H5. rewrite Ht in H5.
    destruct H5 as (v & Hv & ->). exists v. split; [exact Hv|].
    rewrite L6 by done. apply lookup_insert_eq.
  - intros u Hud Ht. rewrite Hu, Hud in H6.
    change (default VNone (Some u)) with u in H6. rewrite Ht in H6.
    destruct H6 as (user & i & Hc & Hp & Hi & ->).
    split; [exact Hc|]. exists user, i. split; [exact Hp|]. split; [exact Hi|].
    apply lookup_insert_eq.
  - intros Hf. rewrite Hu in H6.
    assert (Invite.truthy_c (default VNone (data !! "inviter")) = false) as Ht.
    { destruct (data !! "inviter") as [u|] eqn:Hud; [by apply Hf | reflexivity]. }
    rewrite Ht in H6. destruct H6 as [-> ->]. split; [reflexivity|].
    rewrite lookup_delete_ne by done. exact Huid.
Qed.

Lemma X15_process_dict_nested_witness :
  let p := Sample2.processed
             (Sample2._process_dict Sample2.raw_invite VClient Sample.cache) in
  let u := VDict (<["id" := VStr "42"]> {[ "username" := VStr "ada" ]}) in
  Sample2._process_dict Sample2.raw_invite VClient Sample.cache = Done (p.1, p.2) ∧
  Sample2.raw_invite !! "inviter" = Some u ∧
  Invite.truthy_c u = true ∧
  ∃ user i, Sample2.place_user_data Sample.cache u = Ok (user, p.2) ∧
            vgetattr user "id" = Ok i ∧
            p.1 !! "inviter_id" = Some i.
Proof.
  intros p u.
  assert (Sample2._process_dict Sample2.raw_invite VClient Sample.cache
            = Done (p.1, p.2)) as Hp by reflexivity.
  assert (Sample2.raw_invite !! "inviter" = Some u) as Hu by reflexivity.
  assert (Invite.truthy_c u = true) as Ht by reflexivity.
  refine (conj Hp (conj Hu (conj Ht _))).
  exact (proj2 (proj1 (proj2 (proj2 (proj2
           (X15_process_dict_nested Sample2.StageInstance_from_dict
              Sample2.Application_from_dict Sample2.GuildPreview_from_dict
              Sample2.place_user_data Sample2.raw_invite p.1 VClient Sample.cache
              p.2 Hp)))) u Hu Ht)).
Defined.

(* ===================================================================== *)
(** ** Further properties of the component constructors *)
(* ===================================================================== *)

(** X16.  A Button needs a [style] that is an enum member: with a raw
    integer, or with no style (null), reading [self.style.value] raises
    the attribute error and no Button comes out, whatever else is given. *)
Theorem X16_button_style_member
    (super_init : list string -> gmap string pyval -> result (gmap string pyval))
    (kwargs s j : gmap string pyval) (st : pyval) :
  super_init Button.__slots__ kwargs = Ok s →
  s !! "_json" = Some (VDict j) →
  s !! "style" = Some st →
  (∀ n, st = VInt n →
     Button.__init__ super_init kwargs = Err (no_attribute "int" "value")) ∧
  (st = VNone →
     Button.__init__ super_init kwargs = Err (no_attribute "NoneType" "value")).
Proof.
  intros Hs Hj Hst.
  assert (Button.__init__ super_init kwargs =
            (sv ← enum_value st;
             Ok (setattr (setattr s "type" ComponentType_BUTTON) "_json"
                   (VDict (dict_update j (<["type" := VInt 2]> {[ "style" := sv ]}))))))
    as Hrun.
  { unfold Button.__init__. rewrite Hs. cbn [mbind result_bind].
    unfold getattr, setattr.
    rewrite (lookup_insert_ne s "type" "_json") by done. rewrite Hj.
    cbn [mbind result_bind dict_of]. rewrite lookup_insert_eq.
    cbn [mbind result_bind enum_value ComponentType_BUTTON].
    rewrite (lookup_insert_ne s "type" "style") by done. rewrite Hst.
    reflexivity. }
  split.
  - intros n ->. exact Hrun.
  - intros ->. exact Hrun.
Qed.

Lemma X16_button_style_member_witness :
  let kwargs : gmap string pyval :=
    <["style" := VInt 1]> {[ "label" := VStr "go" ]} in
  let s := Sample.built (DictSerializerMixin_init Button.__slots__ kwargs) in
  DictSerializerMixin_init Button.__slots__ kwargs = Ok s ∧
  s !! "_json" = Some (VDict kwargs) ∧
  s !! "style" = Some (VInt 1) ∧
  Button.__init__ DictSerializerMixin_init kwargs =
    Err (AttributeError "'int' object has no attribute 'value'").
Proof.
  intros kwargs s.
  assert (DictSerializerMixin_init Button.__slots__ kwargs = Ok s) as Hs
    by reflexivity.
  assert (s !! "_json" = Some (VDict kwargs)) as Hj by reflexivity.
  assert (s !! "style" = Some (VInt 1)) as Hst by (vm_compute; reflexivity).
  exact (conj Hs (conj Hj (conj Hst
           (proj1 (X16_button_style_member DictSerializerMixin_init kwargs s kwargs
                     (VInt 1) Hs Hj Hst) 1 eq_refl)))).
Defined.

(** X17.  What the constructors leave alone.  ActionRow and Component
    change the attribute [type] and nothing else: [_json] stays as the
    base constructor left it, so a type given by the caller is still
    there.  SelectMenu and Button change [type] and [_json], and in
    [_json] only "type" (and, for Button, "style", which becomes the
    integer of the member). *)
Theorem X17_constructor_frames (E : Env)
    (super_init : list string -> gmap string pyval -> result (gmap string pyval))
    (kwargs : gmap string pyval) :
  (∀ s b,
     super_init ActionRow.__slots__ kwargs = Ok s →
     ActionRow.__init__ super_init kwargs = Ok b →
     ∀ k, k ≠ "type" → b !! k = s !! k) ∧
  (∀ s b,
     super_init Component.__slots__ kwargs = Ok s →
     Component.__init__ E super_init kwargs = Ok b →
     ∀ k, k ≠ "type" → b !! k = s !! k) ∧
  (∀ s j b,
     super_init SelectMenu.__slots__ kwargs = Ok s →
     s !! "_json" = Some (VDict j) →
     SelectMenu.__init__ super_init kwargs = Ok b →
     (∀ k, k ≠ "type" → k ≠ "_json" → b !! k = s !! k) ∧
     ∃ j', b !! "_json" = Some (VDict j') ∧
           ∀ k, k ≠ "type" → j' !! k = j !! k) ∧
  (∀ s j b,
     super_init Button.__slots__ kwargs = Ok s →
     s !! "_json" = Some (VDict j) →
     Button.__init__ super_init kwargs = Ok b →
     (∀ k, k ≠ "type" → k ≠ "_json" → b !! k = s !! k) ∧
     ∃ j' cls n, s !! "style" = Some (VEnum cls n) ∧
           b !! "_json" = Some (VDict j') ∧
           j' !! "style" = Some (VInt n) ∧
           ∀ k, k ≠ "type" → k ≠ "style" → j' !! k = j !! k).
Proof.
  split; [|split; [|split]].
  - intros s b Hs. unfold ActionRow.__init__. rewrite Hs. cbn [mbind result_bind].
    intros [= <-] k Hk. unfold setattr. by rewrite lookup_insert_ne.
  - intros s b Hs. unfold Component.__init__. rewrite Hs. cbn [mbind result_bind].
    destruct (getattr s "type") as [t|e]; cbn [mbind result_bind]; [|done].
    destruct (Component.ComponentType E t) as [t'|e]; cbn [mbind result_bind];
      [|done].
    intros [= <-] k Hk. unfold setattr. by rewrite lookup_insert_ne.
  - intros s j b Hs Hj. unfold SelectMenu.__init__. rewrite Hs.
    cbn [mbind result_bind]. unfold getattr, setattr.
    rewrite (lookup_insert_ne s "type" "_json") by done. rewrite Hj.
    cbn [mbind result_bind dict_of]. rewrite lookup_insert_eq.
    cbn [mbind result_bind enum_value ComponentType_SELECT].
    intros [= <-]. split.
    + intros k Hk Hk'. by rewrite !lookup_insert_ne.
    + eexists. split; [apply lookup_insert_eq|].
      intros k Hk. unfold dict_update. rewrite lookup_union_r; [done|].
      by rewrite lookup_singleton_ne.
  - intros s j b Hs Hj. unfold Button.__init__. rewrite Hs.
    cbn [mbind result_bind]. unfold getattr, setattr.
    rewrite (lookup_insert_ne s "type" "_json") by done. rewrite Hj.
    cbn [mbind result_bind dict_of]. rewrite lookup_insert_eq.
    cbn [mbind result_bind enum_value ComponentType_BUTTON].
    rewrite (lookup_insert_ne s "type" "style") by done.
    destruct (s !! "style") as [st|]; cbn [mbind result_bind]; [|done].
    destruct st; try done. cbn [mbind result_bind enum_value].
    intros [= <-]. split.
    + intros k Hk Hk'. by rewrite !lookup_insert_ne.
    + eexists _, cls, n. split; [reflexivity|].
      split; [apply lookup_insert_eq|]. unfold dict_update. split.
      * apply lookup_union_Some_l. rewrite lookup_insert_ne by done.
        apply lookup_singleton_eq.
      * intros k Hk Hk'. rewrite lookup_union_r; [done|].
        rewrite lookup_insert_ne by done. by rewrite lookup_singleton_ne.
Qed.

Lemma X17_constructor_frames_witness :
  let kwargs : gmap string pyval :=
    <["type" := VInt 5]> {[ "components" := VList [] ]} in
  let s := Sample.built (DictSerializerMixin_init ActionRow.__slots__ kwargs) in
  let b := Sample.built (ActionRow.__init__ DictSerializerMixin_init kwargs) in
  DictSerializerMixin_init ActionRow.__slots__ kwargs = Ok s ∧
  ActionRow.__init__ DictSerializerMixin_init kwargs = Ok b ∧
  b !! "type" = Some (VInt 1) ∧
  b !! "_json" = Some (VDict kwargs) ∧
  kwargs !! "type" = Some (VInt 5).
Proof.
  intros kwargs s b.
  assert (DictSerializerMixin_init ActionRow.__slots__ kwargs = Ok s) as Hs
    by reflexivity.
  assert (ActionRow.__init__ DictSerializerMixin_init kwargs = Ok b) as Hb
    by reflexivity.
  refine (conj Hs (conj Hb (conj _ (conj _ _)))).
  - vm_compute. reflexivity.
  - rewrite (proj1 (X17_constructor_frames Sample.env DictSerializerMixin_init kwargs)
               s b Hs Hb "_json"); [reflexivity|done].
  - vm_compute. reflexivity.
Defined.
